(** * Marshalling of Slack block containers

    A shallow embedding of the polymorphic JSON encoding and decoding of
    [Blocks], [BlockElements], [Accessory] and [ContextElements]
    (package [slack], the marshalling file and [block.go]).

    Conventions of the embedding:
    - a [[]byte] holding JSON text is either not a JSON text at all or the
      text of one JSON value ([bytes]); a [json.RawMessage] obtained from a
      successful decode is the JSON value it spells;
    - a Go function with a pointer receiver that returns [error] becomes a
      function from the receiver to the receiver after the call, paired
      with the returned error ([None] for [nil]);
    - a slice is a list; every slice of the package is grown by [append]
      from a [nil] slice, so the empty list is the [nil] slice;
    - a pointer to a concrete variant held in an accumulator is the variant
      it points to; a pointer slot of [Accessory] is an [option]. *)

From Stdlib Require Import ZArith Lia.
From stdpp Require Import base strings list gmap.

Set Warnings "-register-all".
Local Open Scope Z_scope.

(** ** The part of [encoding/json] the package relies on *)

(** A JSON value.  A number keeps its decimal literal as mantissa and
    exponent ([JNum m e] is [m * 10^e]); an object keeps its members in
    textual order, duplicates included. *)
Inductive json : Type :=
  | JNull
  | JBool (b : bool)
  | JNum (m e : Z)
  | JStr (s : string)
  | JArr (items : list json)
  | JObj (members : list (string * json)).

(** The argument of [UnmarshalJSON]. *)
Inductive bytes : Type :=
  | Malformed
  | Encoded (v : json).

(** [json.RawMessage]. *)
Definition RawMessage : Type := json.

(** Go's [error] values produced by [encoding/json]. *)
Inductive error : Type :=
  | SyntaxError
  | UnmarshalTypeError (value : string)
  | MarshalerError (msg : string).

(** A Go result pair [(v, err)]. *)
Inductive result (A : Type) : Type :=
  | Ok (a : A)
  | Err (e : error).
Arguments Ok {A} a.
Arguments Err {A} e.

#[global] Instance result_ret : MRet result := fun A a => Ok a.
#[global] Instance result_bind : MBind result := fun A B f m =>
  match m with
  | Ok a => f a
  | Err e => Err e
  end.

(** [strconv.ParseFloat(s, 64)] fails with a range error exactly when the
    literal rounds to an infinity, that is when its magnitude reaches
    [2^1024 - 2^970], half an ulp above the largest [float64]. *)
Definition float64_limit : Z := 2 ^ 1024 - 2 ^ 970.

Definition fitsFloat64 (m e : Z) : bool :=
  if 0 <=? e then Z.abs m * 10 ^ e <? float64_limit
  else Z.abs m <? float64_limit * 10 ^ (- e).

(** Decoding a value into [interface{}] converts every number literal in
    it to [float64]. *)
Fixpoint numbersFit (v : json) : bool :=
  match v with
  | JNum m e => fitsFloat64 m e
  | JArr items => forallb numbersFit items
  | JObj members => forallb (fun kv => numbersFit (snd kv)) members
  | _ => true
  end.

Definition kindName (v : json) : string :=
  match v with
  | JNull => "null"
  | JBool _ => "bool"
  | JNum _ _ => "number"
  | JStr _ => "string"
  | JArr _ => "array"
  | JObj _ => "object"
  end.

(** A Go [map[string]interface{}] filled from the members of an object:
    a later member overwrites an earlier one with the same name.  The
    values are kept as the JSON values they were decoded from. *)
Definition toMap (members : list (string * json)) : gmap string json :=
  foldl (fun m kv => <[kv.1 := kv.2]> m) ∅ members.

(** [json.Unmarshal(data, &raw)] with [raw []json.RawMessage]: an array
    gives its elements, [null] gives the nil slice, any other value is a
    type error. *)
Definition Unmarshal_RawMessages (data : bytes) : result (list RawMessage) :=
  match data with
  | Malformed => Err SyntaxError
  | Encoded (JArr items) => Ok items
  | Encoded JNull => Ok []
  | Encoded v => Err (UnmarshalTypeError (kindName v))
  end.

(** [json.Unmarshal(data, &r)] with [r json.RawMessage]. *)
Definition Unmarshal_RawMessage (data : bytes) : result RawMessage :=
  match data with
  | Malformed => Err SyntaxError
  | Encoded v => Ok v
  end.

(** [json.Unmarshal(r, &obj)] with [obj map[string]interface{}]: an
    object gives its map (unless one of its numbers is out of range),
    [null] gives the nil map, any other value is a type error. *)
Definition Unmarshal_map (r : RawMessage) : result (gmap string json) :=
  match r with
  | JNull => Ok ∅
  | JObj members =>
      if forallb (fun kv => numbersFit (snd kv)) members
      then Ok (toMap members)
      else Err (UnmarshalTypeError "number")
  | v => Err (UnmarshalTypeError (kindName v))
  end.

(** [if t, ok := obj["type"].(string); ok { blockType = t }] on a
    variable that starts as the empty string. *)
Definition typeField (obj : gmap string json) : string :=
  match obj !! "type" with
  | Some (JStr t) => t
  | _ => ""
  end.

(** A concrete variant structure: [decode r] is
    [json.Unmarshal(r, &T{})] and [encode x] is [json.Marshal(x)].  The
    structures are declared outside the marshalling file, which only
    chooses which of them to invoke. *)
Class Codec (T : Type) : Type := {
  decode : RawMessage -> result T;
  encode : T -> result json
}.

(** The elements of a slice, encoded in order; the first failure is the
    failure of the whole. *)
Fixpoint encodeAll {T : Type} (enc : T -> result json) (s : list T)
  : result (list json) :=
  match s with
  | [] => Ok []
  | x :: s' => j ← enc x; js ← encodeAll enc s'; mret (j :: js)
  end.

(** [json.Marshal(s)] for a slice [s]: the nil slice is [null], any other
    slice is the array of its encoded elements. *)
Definition Marshal_slice {T : Type} (enc : T -> result json) (s : list T)
  : result json :=
  match s with
  | [] => Ok JNull
  | _ => js ← encodeAll enc s; mret (JArr js)
  end.

(** [json.Marshal(v)] for an interface value [v]: the nil interface is
    [null]. *)
Definition Marshal_interface {T : Type} (enc : T -> result json) (v : option T)
  : result json :=
  match v with
  | None => Ok JNull
  | Some x => enc x
  end.

(** [for _, r := range raw { body }] where the body either falls through
    with the receiver updated or returns an error from the function. *)
Fixpoint rangeLoop {B : Type} (body : B -> RawMessage -> result B)
  (b : B) (raw : list RawMessage) : B * option error :=
  match raw with
  | [] => (b, None)
  | r :: rest =>
      match body b r with
      | Ok b' => rangeLoop body b' rest
      | Err e => (b, Some e)
      end
  end.

(** Modelled from the spec: the constants [PlainTextType] and
    [MarkdownType] are declared outside the sources; the discriminators of
    the two text objects are [plain_text] and [mrkdwn]. *)
Definition PlainTextType : string := "plain_text".
Definition MarkdownType : string := "mrkdwn".

(** ** The concrete variants

    The block, element and text-object structures are declared in other
    files of the package.  The marshalling code needs of each of them only
    that [encoding/json] can decode and encode it.  [OtherBlock] and
    [OtherBlockElement] stand for every dynamic type of a [Block] or
    [BlockElement] interface value that the type switches do not list
    (the nil interface included). *)
Class Variants : Type := {
  ActionBlock : Type;
  ContextBlock : Type;
  DividerBlock : Type;
  ImageBlock : Type;
  SectionBlock : Type;
  OtherBlock : Type;
  ImageBlockElement : Type;
  ButtonBlockElement : Type;
  OverflowBlockElement : Type;
  DatePickerBlockElement : Type;
  SelectBlockElement : Type;
  OtherBlockElement : Type;
  TextBlockObject : Type;
  ActionBlock_codec :: Codec ActionBlock;
  ContextBlock_codec :: Codec ContextBlock;
  DividerBlock_codec :: Codec DividerBlock;
  ImageBlock_codec :: Codec ImageBlock;
  SectionBlock_codec :: Codec SectionBlock;
  ImageBlockElement_codec :: Codec ImageBlockElement;
  ButtonBlockElement_codec :: Codec ButtonBlockElement;
  OverflowBlockElement_codec :: Codec OverflowBlockElement;
  DatePickerBlockElement_codec :: Codec DatePickerBlockElement;
  SelectBlockElement_codec :: Codec SelectBlockElement;
  OtherBlockElement_codec :: Codec OtherBlockElement;
  TextBlockObject_codec :: Codec TextBlockObject
}.

(** Modelled from the spec: the concrete variant structures are declared
    outside the sources; each of them is a JSON object carrying a [type]
    string field.  The stand-in below, used to run the operations on
    concrete inputs, keeps that field only:
    [struct { Type string `json:"type"` }]. *)
Module Sample.

Record Shape : Type := { Type_ : string }.

Definition lowerAscii (c : Ascii.ascii) : Ascii.ascii :=
  let n := Ascii.nat_of_ascii c in
  if (Nat.leb 65 n && Nat.leb n 90)%bool
  then Ascii.ascii_of_nat (n + 32)%nat
  else c.

Fixpoint lower (s : string) : string :=
  match s with
  | EmptyString => EmptyString
  | String c s' => String (lowerAscii c) (lower s')
  end.

(** Members are visited in order; a member whose name folds to [type]
    sets the field from a string, leaves it alone on [null] and is a
    type error otherwise; every other member is skipped. *)
Fixpoint decodeMembers (members : list (string * json)) (acc : string)
  : result string :=
  match members with
  | [] => Ok acc
  | (k, v) :: rest =>
      if String.eqb (lower k) "type" then
        match v with
        | JStr s => decodeMembers rest s
        | JNull => decodeMembers rest acc
        | _ => Err (UnmarshalTypeError (kindName v))
        end
      else decodeMembers rest acc
  end.

Definition decodeShape (r : RawMessage) : result Shape :=
  match r with
  | JObj members => t ← decodeMembers members ""; mret {| Type_ := t |}
  | JNull => Ok {| Type_ := "" |}
  | v => Err (UnmarshalTypeError (kindName v))
  end.

Definition encodeShape (x : Shape) : result json :=
  Ok (JObj [("type", JStr (Type_ x))]).

#[global] Instance Shape_codec : Codec Shape :=
  {| decode := decodeShape; encode := encodeShape |}.

#[global] Instance variants : Variants := {|
  ActionBlock := Shape; ContextBlock := Shape; DividerBlock := Shape;
  ImageBlock := Shape; SectionBlock := Shape; OtherBlock := Shape;
  ImageBlockElement := Shape; ButtonBlockElement := Shape;
  OverflowBlockElement := Shape; DatePickerBlockElement := Shape;
  SelectBlockElement := Shape; OtherBlockElement := Shape;
  TextBlockObject := Shape
|}.

(** [{"type": t}] *)
Definition tagged (t : string) : json := JObj [("type", JStr t)].

Definition shape (t : string) : Shape := {| Type_ := t |}.

Definition img : json := tagged "image".
Definition btn : json := tagged "button".
Definition sel : json := tagged "static_select".

End Sample.

(** ** The containers and their operations *)
Section Marshalling.

Context `{V : Variants}.

(** The [Block] interface, by dynamic type. *)
Inductive Block : Type :=
  | Block_Action (x : ActionBlock)
  | Block_Context (x : ContextBlock)
  | Block_Divider (x : DividerBlock)
  | Block_Image (x : ImageBlock)
  | Block_Section (x : SectionBlock)
  | Block_other (x : OtherBlock).

(** The [BlockElement] interface, by dynamic type. *)
Inductive BlockElement : Type :=
  | Elem_Image (x : ImageBlockElement)
  | Elem_Button (x : ButtonBlockElement)
  | Elem_Overflow (x : OverflowBlockElement)
  | Elem_DatePicker (x : DatePickerBlockElement)
  | Elem_Select (x : SelectBlockElement)
  | Elem_other (x : OtherBlockElement).

(** The [mixedElement] interface as [toMixedElements] fills it. *)
Inductive mixedElement : Type :=
  | Mixed_Image (x : ImageBlockElement)
  | Mixed_Text (x : TextBlockObject).

(** [Blocks] as the marshalling code reads and writes it: one
    accumulator per kind.  ([block.go] declares the struct with a single
    [BlockSet] field; the five fields below are the ones the code under
    study uses.) *)
Record Blocks : Type := {
  ActionBlocks : list ActionBlock;
  ContextBlocks : list ContextBlock;
  DividerBlocks : list DividerBlock;
  ImageBlocks : list ImageBlock;
  SectionBlocks : list SectionBlock
}.

Record BlockElements : Type := {
  ImageElements : list ImageBlockElement;
  ButtonElements : list ButtonBlockElement;
  OverflowElements : list OverflowBlockElement;
  DatePickerElements : list DatePickerBlockElement;
  SelectElements : list SelectBlockElement
}.

Record Accessory : Type := {
  ImageElement : option ImageBlockElement;
  ButtonElement : option ButtonBlockElement;
  OverflowElement : option OverflowBlockElement;
  DatePickerElement : option DatePickerBlockElement;
  SelectElement : option SelectBlockElement
}.

(** The fields [ImageElements] and [TextObjects] of [ContextElements]. *)
Record ContextElements : Type := {
  Ctx_ImageElements : list ImageBlockElement;
  Ctx_TextObjects : list TextBlockObject
}.

(** The zero values. *)
Definition zeroBlocks : Blocks := Build_Blocks [] [] [] [] [].
Definition zeroBlockElements : BlockElements := Build_BlockElements [] [] [] [] [].
Definition zeroAccessory : Accessory := Build_Accessory None None None None None.
Definition zeroContextElements : ContextElements := Build_ContextElements [] [].

(** [json.Marshal] of an interface value dispatches on its dynamic type. *)
Definition encodeBlockElement (el : BlockElement) : result json :=
  match el with
  | Elem_Image x => encode x
  | Elem_Button x => encode x
  | Elem_Overflow x => encode x
  | Elem_DatePicker x => encode x
  | Elem_Select x => encode x
  | Elem_other x => encode x
  end.

Definition encodeMixedElement (el : mixedElement) : result json :=
  match el with
  | Mixed_Image x => encode x
  | Mixed_Text x => encode x
  end.

(** *** Blocks *)

Definition unmarshalBlock {T : Type} `{!Codec T} (r : RawMessage) : result T :=
  match decode r with
  | Err err => Err err
  | Ok block => Ok block
  end.

(** The body of the loop of [Blocks.UnmarshalJSON]. *)
Definition Blocks_UnmarshalJSON_body (b : Blocks) (r : RawMessage) : result Blocks :=
  obj ← Unmarshal_map r;
  let blockType := typeField obj in
  if String.eqb blockType "actions" then
    block ← unmarshalBlock r;
    mret (Build_Blocks (ActionBlocks b ++ [block]) (ContextBlocks b)
            (DividerBlocks b) (ImageBlocks b) (SectionBlocks b))
  else if String.eqb blockType "context" then
    block ← unmarshalBlock r;
    mret (Build_Blocks (ActionBlocks b) (ContextBlocks b ++ [block])
            (DividerBlocks b) (ImageBlocks b) (SectionBlocks b))
  else if String.eqb blockType "divider" then
    block ← unmarshalBlock r;
    mret (Build_Blocks (ActionBlocks b) (ContextBlocks b)
            (DividerBlocks b ++ [block]) (ImageBlocks b) (SectionBlocks b))
  else if String.eqb blockType "image" then
    block ← unmarshalBlock r;
    mret (Build_Blocks (ActionBlocks b) (ContextBlocks b)
            (DividerBlocks b) (ImageBlocks b ++ [block]) (SectionBlocks b))
  else if String.eqb blockType "section" then
    block ← unmarshalBlock r;
    mret (Build_Blocks (ActionBlocks b) (ContextBlocks b)
            (DividerBlocks b) (ImageBlocks b) (SectionBlocks b ++ [block]))
  else mret b.

Definition Blocks_UnmarshalJSON (b : Blocks) (data : bytes) : Blocks * option error :=
  match Unmarshal_RawMessages data with
  | Err err => (b, Some err)
  | Ok raw => rangeLoop Blocks_UnmarshalJSON_body b raw
  end.

(** One turn of the type switch of [appendToBlocks]. *)
Definition appendBlock (b : Blocks) (block : Block) : Blocks :=
  match block with
  | Block_Action blockType =>
      Build_Blocks (ActionBlocks b ++ [blockType]) (ContextBlocks b)
        (DividerBlocks b) (ImageBlocks b) (SectionBlocks b)
  | Block_Context blockType =>
      Build_Blocks (ActionBlocks b) (ContextBlocks b ++ [blockType])
        (DividerBlocks b) (ImageBlocks b) (SectionBlocks b)
  | Block_Divider blockType =>
      Build_Blocks (ActionBlocks b) (ContextBlocks b)
        (DividerBlocks b ++ [blockType]) (ImageBlocks b) (SectionBlocks b)
  | Block_Image blockType =>
      Build_Blocks (ActionBlocks b) (ContextBlocks b)
        (DividerBlocks b) (ImageBlocks b ++ [blockType]) (SectionBlocks b)
  | Block_Section blockType =>
      Build_Blocks (ActionBlocks b) (ContextBlocks b)
        (DividerBlocks b) (ImageBlocks b) (SectionBlocks b ++ [blockType])
  | Block_other _ => b
  end.

Definition appendToBlocks (b : Blocks) (appendBlocks : list Block) : Blocks :=
  foldl appendBlock b appendBlocks.

(** *** BlockElements *)

Definition unmarshalBlockElement {T : Type} `{!Codec T} (r : RawMessage) : result T :=
  match decode r with
  | Err err => Err err
  | Ok element => Ok element
  end.

Definition toBlockElementSlice (elements : BlockElements) : list BlockElement :=
  let slice := [] in
  let slice := slice ++ map Elem_Image (ImageElements elements) in
  let slice := slice ++ map Elem_Button (ButtonElements elements) in
  let slice := slice ++ map Elem_Overflow (OverflowElements elements) in
  let slice := slice ++ map Elem_DatePicker (DatePickerElements elements) in
  let slice := slice ++ map Elem_Select (SelectElements elements) in
  slice.

Definition BlockElements_MarshalJSON (e : BlockElements) : result json :=
  match Marshal_slice encodeBlockElement (toBlockElementSlice e) with
  | Err err => Err err
  | Ok bytes => Ok bytes
  end.

(** The body of the loop of [BlockElements.UnmarshalJSON]. *)
Definition BlockElements_UnmarshalJSON_body (b : BlockElements) (r : RawMessage)
  : result BlockElements :=
  obj ← Unmarshal_map r;
  let blockElementType := typeField obj in
  if String.eqb blockElementType "image" then
    element ← unmarshalBlockElement r;
    mret (Build_BlockElements (ImageElements b ++ [element]) (ButtonElements b)
            (OverflowElements b) (DatePickerElements b) (SelectElements b))
  else if String.eqb blockElementType "button" then
    element ← unmarshalBlockElement r;
    mret (Build_BlockElements (ImageElements b) (ButtonElements b ++ [element])
            (OverflowElements b) (DatePickerElements b) (SelectElements b))
  else if String.eqb blockElementType "overflow" then
    element ← unmarshalBlockElement r;
    mret (Build_BlockElements (ImageElements b) (ButtonElements b)
            (OverflowElements b ++ [element]) (DatePickerElements b) (SelectElements b))
  else if String.eqb blockElementType "datepicker" then
    element ← unmarshalBlockElement r;
    mret (Build_BlockElements (ImageElements b) (ButtonElements b)
            (OverflowElements b) (DatePickerElements b ++ [element]) (SelectElements b))
  else if String.eqb blockElementType "static_select" then
    element ← unmarshalBlockElement r;
    mret (Build_BlockElements (ImageElements b) (ButtonElements b)
            (OverflowElements b) (DatePickerElements b) (SelectElements b ++ [element]))
  else mret b.

Definition BlockElements_UnmarshalJSON (b : BlockElements) (data : bytes)
  : BlockElements * option error :=
  match Unmarshal_RawMessages data with
  | Err err => (b, Some err)
  | Ok raw => rangeLoop BlockElements_UnmarshalJSON_body b raw
  end.

(** One turn of the type switch of [appendToBlockElements]. *)
Definition appendBlockElement (e : BlockElements) (element : BlockElement)
  : BlockElements :=
  match element with
  | Elem_Image elementType =>
      Build_BlockElements (ImageElements e ++ [elementType]) (ButtonElements e)
        (OverflowElements e) (DatePickerElements e) (SelectElements e)
  | Elem_Button elementType =>
      Build_BlockElements (ImageElements e) (ButtonElements e ++ [elementType])
        (OverflowElements e) (DatePickerElements e) (SelectElements e)
  | Elem_Overflow elementType =>
      Build_BlockElements (ImageElements e) (ButtonElements e)
        (OverflowElements e ++ [elementType]) (DatePickerElements e) (SelectElements e)
  | Elem_DatePicker elementType =>
      Build_BlockElements (ImageElements e) (ButtonElements e)
        (OverflowElements e) (DatePickerElements e ++ [elementType]) (SelectElements e)
  | Elem_Select elementType =>
      Build_BlockElements (ImageElements e) (ButtonElements e)
        (OverflowElements e) (DatePickerElements e) (SelectElements e ++ [elementType])
  | Elem_other _ => e
  end.

Definition appendToBlockElements (e : BlockElements) (appendElements : list BlockElement)
  : BlockElements :=
  foldl appendBlockElement e appendElements.

(** *** Accessory *)

(** The interface value returned by [toBlockElement]; [None] is the nil
    interface. *)
Definition toBlockElement (element : Accessory) : option BlockElement :=
  match ImageElement element with
  | Some x => Some (Elem_Image x)
  | None =>
  match ButtonElement element with
  | Some x => Some (Elem_Button x)
  | None =>
  match OverflowElement element with
  | Some x => Some (Elem_Overflow x)
  | None =>
  match DatePickerElement element with
  | Some x => Some (Elem_DatePicker x)
  | None =>
  match SelectElement element with
  | Some x => Some (Elem_Select x)
  | None => None
  end end end end end.

Definition Accessory_MarshalJSON (a : Accessory) : result json :=
  match Marshal_interface encodeBlockElement (toBlockElement a) with
  | Err err => Err err
  | Ok bytes => Ok bytes
  end.

(** The part of [Accessory.UnmarshalJSON] after the two generic decodes. *)
Definition Accessory_UnmarshalJSON_switch (a : Accessory) (r : RawMessage)
  (blockElementType : string) : result Accessory :=
  if String.eqb blockElementType "image" then
    element ← unmarshalBlockElement r;
    mret (Build_Accessory (Some element) (ButtonElement a)
            (OverflowElement a) (DatePickerElement a) (SelectElement a))
  else if String.eqb blockElementType "button" then
    element ← unmarshalBlockElement r;
    mret (Build_Accessory (ImageElement a) (Some element)
            (OverflowElement a) (DatePickerElement a) (SelectElement a))
  else if String.eqb blockElementType "overflow" then
    element ← unmarshalBlockElement r;
    mret (Build_Accessory (ImageElement a) (ButtonElement a)
            (Some element) (DatePickerElement a) (SelectElement a))
  else if String.eqb blockElementType "datepicker" then
    element ← unmarshalBlockElement r;
    mret (Build_Accessory (ImageElement a) (ButtonElement a)
            (OverflowElement a) (Some element) (SelectElement a))
  else if String.eqb blockElementType "static_select" then
    element ← unmarshalBlockElement r;
    mret (Build_Accessory (ImageElement a) (ButtonElement a)
            (OverflowElement a) (DatePickerElement a) (Some element))
  else mret a.

Definition Accessory_UnmarshalJSON (a : Accessory) (data : bytes)
  : Accessory * option error :=
  match Unmarshal_RawMessage data with
  | Err err => (a, Some err)
  | Ok r =>
      match Unmarshal_map r with
      | Err err => (a, Some err)
      | Ok obj =>
          match Accessory_UnmarshalJSON_switch a r (typeField obj) with
          | Err err => (a, Some err)
          | Ok a' => (a', None)
          end
      end
  end.

(** *** ContextElements *)

Definition toMixedElements (elements : ContextElements) : list mixedElement :=
  let slice := [] in
  let slice := slice ++ map Mixed_Image (Ctx_ImageElements elements) in
  let slice := slice ++ map Mixed_Text (Ctx_TextObjects elements) in
  slice.

Definition ContextElements_MarshalJSON (e : ContextElements) : result json :=
  match Marshal_slice encodeMixedElement (toMixedElements e) with
  | Err err => Err err
  | Ok bytes => Ok bytes
  end.

(** Modelled from the spec: [unmarshalBlockObject] is declared outside the
    sources; like its two siblings it decodes the raw element into the
    concrete structure and hands the structure back, or the error. *)
Definition unmarshalBlockObject {T : Type} `{!Codec T} (r : RawMessage) : result T :=
  match decode r with
  | Err err => Err err
  | Ok obj => Ok obj
  end.

(** The body of the loop of [ContextElements.UnmarshalJSON]. *)
Definition ContextElements_UnmarshalJSON_body (e : ContextElements) (r : RawMessage)
  : result ContextElements :=
  obj ← Unmarshal_map r;
  let contextElementType := typeField obj in
  if (String.eqb contextElementType PlainTextType
      || String.eqb contextElementType MarkdownType)%bool then
    elem ← unmarshalBlockObject r;
    mret (Build_ContextElements (Ctx_ImageElements e) (Ctx_TextObjects e ++ [elem]))
  else if String.eqb contextElementType "image" then
    elem ← unmarshalBlockElement r;
    mret (Build_ContextElements (Ctx_ImageElements e ++ [elem]) (Ctx_TextObjects e))
  else mret e.

Definition ContextElements_UnmarshalJSON (e : ContextElements) (data : bytes)
  : ContextElements * option error :=
  match Unmarshal_RawMessages data with
  | Err err => (e, Some err)
  | Ok raw => rangeLoop ContextElements_UnmarshalJSON_body e raw
  end.

End Marshalling.

(** ** What a decode call is expected to collect

    The definitions below describe, independently of the loops, what one
    raw element contributes: the error it raises, if any, and the values
    it adds to each accumulator. *)
Section Expected.

Context `{V : Variants}.

Definition errorOf {A : Type} (m : result A) : option error :=
  match m with
  | Ok _ => None
  | Err e => Some e
  end.

Definition valueOf {A : Type} (m : result A) : option A :=
  match m with
  | Ok a => Some a
  | Err _ => None
  end.

(** The discriminator the decoders read off an element: the [type]
    member of the generic decode when it is a string, the empty string
    otherwise. *)
Definition discriminator (r : RawMessage) : string :=
  match Unmarshal_map r with
  | Ok obj => typeField obj
  | Err _ => ""
  end.

Definition typeIs (t : string) : string -> bool := fun s => String.eqb s t.

Definition isText : string -> bool :=
  fun s => (String.eqb s PlainTextType || String.eqb s MarkdownType)%bool.

(** The elements whose discriminator satisfies [p], decoded as [T], in
    the order of the array. *)
Definition decodedAs (T : Type) `{!Codec T} (p : string -> bool)
  (raw : list RawMessage) : list T :=
  omap (fun r => if p (discriminator r) then valueOf (decode r) else None) raw.

(** A JSON object that the generic decode accepts. *)
Definition wellFormedObject (r : RawMessage) : Prop :=
  exists members obj, r = JObj members /\ Unmarshal_map r = Ok obj.

(** The discriminators each container recognizes. *)
Definition isBlockType (t : string) : bool :=
  (typeIs "actions" t || typeIs "context" t || typeIs "divider" t || typeIs "image" t
   || typeIs "section" t)%bool.

Definition isBlockElementType (t : string) : bool :=
  (typeIs "image" t || typeIs "button" t || typeIs "overflow" t || typeIs "datepicker" t
   || typeIs "static_select" t)%bool.

Definition isContextElementType (t : string) : bool :=
  (isText t || typeIs "image" t)%bool.

(** The error an element raises: that of the generic decode, or that of
    the concrete decode its discriminator selects. *)
Definition Blocks_elementError (r : RawMessage) : option error :=
  match Unmarshal_map r with
  | Err e => Some e
  | Ok obj =>
      let t := typeField obj in
      if typeIs "actions" t then errorOf (decode (T := ActionBlock) r)
      else if typeIs "context" t then errorOf (decode (T := ContextBlock) r)
      else if typeIs "divider" t then errorOf (decode (T := DividerBlock) r)
      else if typeIs "image" t then errorOf (decode (T := ImageBlock) r)
      else if typeIs "section" t then errorOf (decode (T := SectionBlock) r)
      else None
  end.

Definition BlockElements_elementError (r : RawMessage) : option error :=
  match Unmarshal_map r with
  | Err e => Some e
  | Ok obj =>
      let t := typeField obj in
      if typeIs "image" t then errorOf (decode (T := ImageBlockElement) r)
      else if typeIs "button" t then errorOf (decode (T := ButtonBlockElement) r)
      else if typeIs "overflow" t then errorOf (decode (T := OverflowBlockElement) r)
      else if typeIs "datepicker" t then errorOf (decode (T := DatePickerBlockElement) r)
      else if typeIs "static_select" t then errorOf (decode (T := SelectBlockElement) r)
      else None
  end.

Definition ContextElements_elementError (r : RawMessage) : option error :=
  match Unmarshal_map r with
  | Err e => Some e
  | Ok obj =>
      let t := typeField obj in
      if isText t then errorOf (decode (T := TextBlockObject) r)
      else if typeIs "image" t then errorOf (decode (T := ImageBlockElement) r)
      else None
  end.

(** The receiver after the elements of [raw] have been collected. *)
Definition Blocks_extend (b : Blocks) (raw : list RawMessage) : Blocks :=
  Build_Blocks
    (ActionBlocks b ++ decodedAs ActionBlock (typeIs "actions") raw)
    (ContextBlocks b ++ decodedAs ContextBlock (typeIs "context") raw)
    (DividerBlocks b ++ decodedAs DividerBlock (typeIs "divider") raw)
    (ImageBlocks b ++ decodedAs ImageBlock (typeIs "image") raw)
    (SectionBlocks b ++ decodedAs SectionBlock (typeIs "section") raw).

Definition BlockElements_extend (b : BlockElements) (raw : list RawMessage)
  : BlockElements :=
  Build_BlockElements
    (ImageElements b ++ decodedAs ImageBlockElement (typeIs "image") raw)
    (ButtonElements b ++ decodedAs ButtonBlockElement (typeIs "button") raw)
    (OverflowElements b ++ decodedAs OverflowBlockElement (typeIs "overflow") raw)
    (DatePickerElements b ++ decodedAs DatePickerBlockElement (typeIs "datepicker") raw)
    (SelectElements b ++ decodedAs SelectBlockElement (typeIs "static_select") raw).

Definition ContextElements_extend (e : ContextElements) (raw : list RawMessage)
  : ContextElements :=
  Build_ContextElements
    (Ctx_ImageElements e ++ decodedAs ImageBlockElement (typeIs "image") raw)
    (Ctx_TextObjects e ++ decodedAs TextBlockObject isText raw).

(** The number of elements a container holds. *)
Definition Blocks_size (b : Blocks) : nat :=
  (length (ActionBlocks b) + length (ContextBlocks b) + length (DividerBlocks b)
   + length (ImageBlocks b) + length (SectionBlocks b))%nat.

Definition BlockElements_size (b : BlockElements) : nat :=
  (length (ImageElements b) + length (ButtonElements b)
   + length (OverflowElements b) + length (DatePickerElements b)
   + length (SelectElements b))%nat.

Definition ContextElements_size (e : ContextElements) : nat :=
  (length (Ctx_ImageElements e) + length (Ctx_TextObjects e))%nat.

(** The members of a list of interface values that have a given
    dynamic type. *)
Definition asActionBlock (x : Block) : option ActionBlock :=
  match x with Block_Action a => Some a | _ => None end.
Definition asContextBlock (x : Block) : option ContextBlock :=
  match x with Block_Context a => Some a | _ => None end.
Definition asDividerBlock (x : Block) : option DividerBlock :=
  match x with Block_Divider a => Some a | _ => None end.
Definition asImageBlock (x : Block) : option ImageBlock :=
  match x with Block_Image a => Some a | _ => None end.
Definition asSectionBlock (x : Block) : option SectionBlock :=
  match x with Block_Section a => Some a | _ => None end.

Definition asImageElement (x : BlockElement) : option ImageBlockElement :=
  match x with Elem_Image a => Some a | _ => None end.
Definition asButtonElement (x : BlockElement) : option ButtonBlockElement :=
  match x with Elem_Button a => Some a | _ => None end.
Definition asOverflowElement (x : BlockElement) : option OverflowBlockElement :=
  match x with Elem_Overflow a => Some a | _ => None end.
Definition asDatePickerElement (x : BlockElement) : option DatePickerBlockElement :=
  match x with Elem_DatePicker a => Some a | _ => None end.
Definition asSelectElement (x : BlockElement) : option SelectBlockElement :=
  match x with Elem_Select a => Some a | _ => None end.

(** The slot [toBlockElement] is specified to pick: the first populated
    one in the order image, button, overflow, date-picker, select. *)
Definition firstPopulated (slots : list (option BlockElement)) : option BlockElement :=
  head (omap id slots).

Definition slotsInPriorityOrder (a : Accessory) : list (option BlockElement) :=
  [ Elem_Image <$> ImageElement a;
    Elem_Button <$> ButtonElement a;
    Elem_Overflow <$> OverflowElement a;
    Elem_DatePicker <$> DatePickerElement a;
    Elem_Select <$> SelectElement a ].


(** A raw element that its concrete structure decodes and encodes back
    to the same JSON value. *)
Definition roundTripsAs (T : Type) `{!Codec T} (r : RawMessage) : Prop :=
  exists x : T, decode r = Ok x /\ encode x = Ok r.

(** An element of a recognized [BlockElement] kind that round-trips
    through the structure of that kind. *)
Definition BlockElement_roundTrips (r : RawMessage) : Prop :=
  (discriminator r = "image" /\ roundTripsAs ImageBlockElement r)
  \/ (discriminator r = "button" /\ roundTripsAs ButtonBlockElement r)
  \/ (discriminator r = "overflow" /\ roundTripsAs OverflowBlockElement r)
  \/ (discriminator r = "datepicker" /\ roundTripsAs DatePickerBlockElement r)
  \/ (discriminator r = "static_select" /\ roundTripsAs SelectBlockElement r).


End Expected.

(** ** How the operations relate to one another

    Definitions used to state how decoding, appending and encoding
    compose. *)
Section Composition.

Context `{V : Variants}.

(** The typed variant an element of a [Blocks] array decodes to, if it is
    of a recognized type and decodes. *)
Definition Blocks_variant (r : RawMessage) : option Block :=
  match Unmarshal_map r with
  | Err _ => None
  | Ok obj =>
      let t := typeField obj in
      if typeIs "actions" t then Block_Action <$> valueOf (decode r)
      else if typeIs "context" t then Block_Context <$> valueOf (decode r)
      else if typeIs "divider" t then Block_Divider <$> valueOf (decode r)
      else if typeIs "image" t then Block_Image <$> valueOf (decode r)
      else if typeIs "section" t then Block_Section <$> valueOf (decode r)
      else None
  end.

Definition BlockElements_variant (r : RawMessage) : option BlockElement :=
  match Unmarshal_map r with
  | Err _ => None
  | Ok obj =>
      let t := typeField obj in
      if typeIs "image" t then Elem_Image <$> valueOf (decode r)
      else if typeIs "button" t then Elem_Button <$> valueOf (decode r)
      else if typeIs "overflow" t then Elem_Overflow <$> valueOf (decode r)
      else if typeIs "datepicker" t then Elem_DatePicker <$> valueOf (decode r)
      else if typeIs "static_select" t then Elem_Select <$> valueOf (decode r)
      else None
  end.

(** The elements of an array up to the first one that raises an error,
    and that error. *)
Fixpoint okPrefix (rejects : RawMessage -> option error) (raw : list RawMessage)
  : list RawMessage :=
  match raw with
  | [] => []
  | r :: rest =>
      match rejects r with
      | None => r :: okPrefix rejects rest
      | Some _ => []
      end
  end.

Fixpoint firstError (rejects : RawMessage -> option error) (raw : list RawMessage)
  : option error :=
  match raw with
  | [] => None
  | r :: rest =>
      match rejects r with
      | None => firstError rejects rest
      | Some e => Some e
      end
  end.

(** Accumulator-wise concatenation of two containers. *)
Definition Blocks_merge (b d : Blocks) : Blocks :=
  Build_Blocks (ActionBlocks b ++ ActionBlocks d)
    (ContextBlocks b ++ ContextBlocks d)
    (DividerBlocks b ++ DividerBlocks d)
    (ImageBlocks b ++ ImageBlocks d)
    (SectionBlocks b ++ SectionBlocks d).

Definition BlockElements_merge (b d : BlockElements) : BlockElements :=
  Build_BlockElements (ImageElements b ++ ImageElements d)
    (ButtonElements b ++ ButtonElements d)
    (OverflowElements b ++ OverflowElements d)
    (DatePickerElements b ++ DatePickerElements d)
    (SelectElements b ++ SelectElements d).

Definition ContextElements_merge (c d : ContextElements) : ContextElements :=
  Build_ContextElements (Ctx_ImageElements c ++ Ctx_ImageElements d)
    (Ctx_TextObjects c ++ Ctx_TextObjects d).

(** The slots of [a] with the populated slots of [d] written over them. *)
Definition overlaySlot {T : Type} (old new : option T) : option T :=
  match new with
  | Some x => Some x
  | None => old
  end.

Definition Accessory_overlay (a d : Accessory) : Accessory :=
  Build_Accessory (overlaySlot (ImageElement a) (ImageElement d))
    (overlaySlot (ButtonElement a) (ButtonElement d))
    (overlaySlot (OverflowElement a) (OverflowElement d))
    (overlaySlot (DatePickerElement a) (DatePickerElement d))
    (overlaySlot (SelectElement a) (SelectElement d)).

Definition populatedSlots (a : Accessory) : nat :=
  length (omap id (slotsInPriorityOrder a)).

(** An interface value of one of the five listed dynamic types. *)
Definition isListedElement (el : BlockElement) : bool :=
  match el with
  | Elem_other _ => false
  | _ => true
  end.

(** An element of a recognized [ContextElements] kind that round-trips
    through the structure of that kind. *)
Definition ContextElement_roundTrips (r : RawMessage) : Prop :=
  (discriminator r = "image" /\ roundTripsAs ImageBlockElement r)
  \/ (isText (discriminator r) = true /\ roundTripsAs TextBlockObject r).

(** The elements of [raw] with the images first and the text objects
    after them, each group in the order of [raw]. *)
Definition imagesThenTexts (raw : list RawMessage) : list RawMessage :=
  filter (fun r => typeIs "image" (discriminator r) = true) raw
  ++ filter (fun r => isText (discriminator r) = true) raw.


(** An element [x] of the kind whose discriminator satisfies [p] that
    encodes to an object of that kind which decodes back to [x]. *)
Definition decodesBack (T : Type) `{!Codec T} (p : string -> bool) (x : T) : Prop :=
  exists j, encode x = Ok j /\ p (discriminator j) = true /\ decode j = Ok x.

End Composition.

(** ** Block messages ([block.go])

    [block.go] keeps the blocks of a message in one ordered [BlockSet].
    [Message] and [Msg] are declared outside the sources; what they hold
    besides the blocks is kept as an opaque value that the two functions
    below never touch ([zeroMsg] and [zeroMessage] are the zero values of
    those parts). *)
Module BlockGo.
Section BlockMessages.

Context `{V : Variants}.
Variable MsgRest MessageRest : Type.
Variable zeroMsg : MsgRest.
Variable zeroMessage : MessageRest.

Record Blocks : Type := { BlockSet : list Block }.

Record Msg : Type := {
  Msg_Blocks : Blocks;
  Msg_rest : MsgRest
}.

Record Message : Type := {
  Message_Msg : Msg;
  Message_rest : MessageRest
}.

Definition NewBlockMessage (blocks : list Block) : Message :=
  {| Message_Msg := {| Msg_Blocks := {| BlockSet := blocks |};
                       Msg_rest := zeroMsg |};
     Message_rest := zeroMessage |}.

Definition AddBlockMessage (message : Message) (newBlk : Block) : Message :=
  {| Message_Msg :=
       {| Msg_Blocks :=
            {| BlockSet := BlockSet (Msg_Blocks (Message_Msg message)) ++ [newBlk] |};
          Msg_rest := Msg_rest (Message_Msg message) |};
     Message_rest := Message_rest message |}.

End BlockMessages.
End BlockGo.

(** ** The loop of the array decoders *)
Section RangeLoop.

Variable B : Type.
Variable body : B -> RawMessage -> result B.
Variable rejects : RawMessage -> option error.
Variable extend : B -> list RawMessage -> B.

Hypothesis body_spec : forall b r,
  body b r = match rejects r with
             | Some e => Err e
             | None => Ok (extend b [r])
             end.
Hypothesis extend_nil : forall b, extend b [] = b.
Hypothesis extend_app : forall b l1 l2,
  extend (extend b l1) l2 = extend b (l1 ++ l2).

Lemma rangeLoop_accepts b raw :
  Forall (fun r => rejects r = None) raw ->
  rangeLoop body b raw = (extend b raw, None).
Proof.
  intros Hall. revert b.
  induction Hall as [|r raw Hr _ IH]; intros b; simpl.
  - by rewrite extend_nil.
  - rewrite body_spec, Hr, IH. by rewrite extend_app.
Qed.


Lemma rangeLoop_skips b pre r post :
  (forall b', body b' r = Ok b') ->
  rangeLoop body b (pre ++ r :: post) = rangeLoop body b (pre ++ post).
Proof.
  intros Hskip. revert b.
  induction pre as [|x pre IH]; intros b; simpl.
  - by rewrite Hskip.
  - destruct (body b x); [apply IH | done].
Qed.

End RangeLoop.

(** The cases of a string switch are told apart by rewriting with the
    equation of the case taken. *)
Ltac switch_on t :=
  repeat match goal with
  | |- context [String.eqb t ?s] =>
      destruct (String.eqb_spec t s) as [->|?]; simpl
  end.

(** ** Facts shared by the claims *)
Section Facts.

Context `{V : Variants}.

Lemma decodedAs_app (T : Type) `{!Codec T} p l1 l2 :
  decodedAs T p (l1 ++ l2) = decodedAs T p l1 ++ decodedAs T p l2.
Proof. apply omap_app. Qed.

Lemma typeIs_true t s : typeIs t s = true <-> s = t.
Proof. apply String.eqb_eq. Qed.

Lemma discriminator_Ok r obj :
  Unmarshal_map r = Ok obj -> discriminator r = typeField obj.
Proof. unfold discriminator. by intros ->. Qed.

Lemma Blocks_extend_nil b : Blocks_extend b [] = b.
Proof. destruct b; unfold Blocks_extend; simpl. by rewrite !app_nil_r. Qed.

Lemma Blocks_extend_app b l1 l2 :
  Blocks_extend (Blocks_extend b l1) l2 = Blocks_extend b (l1 ++ l2).
Proof. unfold Blocks_extend; simpl. by rewrite !decodedAs_app, !app_assoc. Qed.

Lemma BlockElements_extend_nil b : BlockElements_extend b [] = b.
Proof. destruct b; unfold BlockElements_extend; simpl. by rewrite !app_nil_r. Qed.

Lemma BlockElements_extend_app b l1 l2 :
  BlockElements_extend (BlockElements_extend b l1) l2
  = BlockElements_extend b (l1 ++ l2).
Proof. unfold BlockElements_extend; simpl. by rewrite !decodedAs_app, !app_assoc. Qed.

Lemma ContextElements_extend_nil e : ContextElements_extend e [] = e.
Proof. destruct e; unfold ContextElements_extend; simpl. by rewrite !app_nil_r. Qed.

Lemma ContextElements_extend_app e l1 l2 :
  ContextElements_extend (ContextElements_extend e l1) l2
  = ContextElements_extend e (l1 ++ l2).
Proof. unfold ContextElements_extend; simpl. by rewrite !decodedAs_app, !app_assoc. Qed.

Lemma Blocks_body_spec b r :
  Blocks_UnmarshalJSON_body b r
  = match Blocks_elementError r with
    | Some e => Err e
    | None => Ok (Blocks_extend b [r])
    end.
Proof.
  unfold Blocks_UnmarshalJSON_body, Blocks_elementError, Blocks_extend,
    decodedAs, discriminator, unmarshalBlock, typeIs.
  simpl. destruct (Unmarshal_map r) as [obj|e]; simpl; [|done].
  generalize (typeField obj); intros t.
  switch_on t; try (destruct (decode r); simpl; by rewrite ?app_nil_r).
  destruct b; simpl; by rewrite !app_nil_r.
Qed.

Lemma BlockElements_body_spec b r :
  BlockElements_UnmarshalJSON_body b r
  = match BlockElements_elementError r with
    | Some e => Err e
    | None => Ok (BlockElements_extend b [r])
    end.
Proof.
  unfold BlockElements_UnmarshalJSON_body, BlockElements_elementError,
    BlockElements_extend, decodedAs, discriminator, unmarshalBlockElement, typeIs.
  simpl. destruct (Unmarshal_map r) as [obj|e]; simpl; [|done].
  generalize (typeField obj); intros t.
  switch_on t; try (destruct (decode r); simpl; by rewrite ?app_nil_r).
  destruct b; simpl; by rewrite !app_nil_r.
Qed.

Lemma ContextElements_body_spec e r :
  ContextElements_UnmarshalJSON_body e r
  = match ContextElements_elementError r with
    | Some err => Err err
    | None => Ok (ContextElements_extend e [r])
    end.
Proof.
  unfold ContextElements_UnmarshalJSON_body, ContextElements_elementError,
    ContextElements_extend, decodedAs, discriminator, unmarshalBlockElement,
    unmarshalBlockObject, isText, typeIs, PlainTextType, MarkdownType.
  simpl. destruct (Unmarshal_map r) as [obj|err]; simpl; [|done].
  generalize (typeField obj); intros t.
  switch_on t; try (destruct (decode r); simpl; by rewrite ?app_nil_r).
  destruct e; simpl; by rewrite !app_nil_r.
Qed.

(** *** Appending typed variants *)

Lemma appendToBlocks_fields b l :
  ActionBlocks (appendToBlocks b l) = ActionBlocks b ++ omap asActionBlock l
  /\ ContextBlocks (appendToBlocks b l) = ContextBlocks b ++ omap asContextBlock l
  /\ DividerBlocks (appendToBlocks b l) = DividerBlocks b ++ omap asDividerBlock l
  /\ ImageBlocks (appendToBlocks b l) = ImageBlocks b ++ omap asImageBlock l
  /\ SectionBlocks (appendToBlocks b l) = SectionBlocks b ++ omap asSectionBlock l.
Proof.
  unfold appendToBlocks. revert b.
  induction l as [|x l IH]; intros b; simpl.
  - by rewrite !app_nil_r.
  - destruct (IH (appendBlock b x)) as (-> & -> & -> & -> & ->).
    destruct x; simpl; by rewrite <- ?app_assoc.
Qed.

Lemma appendToBlockElements_fields e l :
  ImageElements (appendToBlockElements e l) = ImageElements e ++ omap asImageElement l
  /\ ButtonElements (appendToBlockElements e l) = ButtonElements e ++ omap asButtonElement l
  /\ OverflowElements (appendToBlockElements e l)
     = OverflowElements e ++ omap asOverflowElement l
  /\ DatePickerElements (appendToBlockElements e l)
     = DatePickerElements e ++ omap asDatePickerElement l
  /\ SelectElements (appendToBlockElements e l) = SelectElements e ++ omap asSelectElement l.
Proof.
  unfold appendToBlockElements. revert e.
  induction l as [|x l IH]; intros e; simpl.
  - by rewrite !app_nil_r.
  - destruct (IH (appendBlockElement e x)) as (-> & -> & -> & -> & ->).
    destruct x; simpl; by rewrite <- ?app_assoc.
Qed.

(** *** Elements the switches do not recognize *)

Lemma typeField_not_string (obj : gmap string json) :
  (forall s, obj !! "type" <> Some (JStr s)) -> typeField obj = "".
Proof.
  intros H. unfold typeField.
  destruct (obj !! "type") as [[| | |s| |]|] eqn:E; try done.
  by destruct (H s).
Qed.

Lemma Blocks_body_unrecognized b r obj :
  Unmarshal_map r = Ok obj ->
  isBlockType (typeField obj) = false ->
  Blocks_UnmarshalJSON_body b r = Ok b.
Proof.
  unfold Blocks_UnmarshalJSON_body, isBlockType, typeIs. intros -> H; simpl.
  revert H. generalize (typeField obj); intros t.
  switch_on t; intros H; first [done | by vm_compute in H].
Qed.

Lemma BlockElements_body_unrecognized b r obj :
  Unmarshal_map r = Ok obj ->
  isBlockElementType (typeField obj) = false ->
  BlockElements_UnmarshalJSON_body b r = Ok b.
Proof.
  unfold BlockElements_UnmarshalJSON_body, isBlockElementType, typeIs.
  intros -> H; simpl.
  revert H. generalize (typeField obj); intros t.
  switch_on t; intros H; first [done | by vm_compute in H].
Qed.

Lemma ContextElements_body_unrecognized e r obj :
  Unmarshal_map r = Ok obj ->
  isContextElementType (typeField obj) = false ->
  ContextElements_UnmarshalJSON_body e r = Ok e.
Proof.
  unfold ContextElements_UnmarshalJSON_body, isContextElementType, isText,
    typeIs, PlainTextType, MarkdownType.
  intros -> H; simpl.
  revert H. generalize (typeField obj); intros t.
  switch_on t; intros H; first [done | by vm_compute in H].
Qed.

Lemma Accessory_switch_unrecognized a r t :
  isBlockElementType t = false ->
  Accessory_UnmarshalJSON_switch a r t = Ok a.
Proof.
  unfold Accessory_UnmarshalJSON_switch, isBlockElementType, typeIs.
  switch_on t; intros H; first [done | by vm_compute in H].
Qed.

(** *** What the accepted elements add up to *)

Lemma decodedAs_recognized (T : Type) `{!Codec T} (p q : string -> bool) raw :
  (forall t, p t = true -> q t = true) ->
  decodedAs T p (filter (fun r => q (discriminator r) = true) raw)
  = decodedAs T p raw.
Proof.
  intros Hpq. induction raw as [|r raw IH]; [done|].
  rewrite filter_cons. change (r :: raw) with ([r] ++ raw).
  rewrite (decodedAs_app T p [r] raw), <- IH.
  destruct (decide (q (discriminator r) = true)) as [Hq|Hq].
  - change (r :: ?l) with ([r] ++ l). by rewrite decodedAs_app.
  - unfold decodedAs at 2; simpl.
    destruct (p (discriminator r)) eqn:Hp; [|done].
    by destruct Hq; apply Hpq.
Qed.

Lemma Blocks_count_one r :
  Blocks_elementError r = None ->
  (length (decodedAs ActionBlock (typeIs "actions") [r])
   + length (decodedAs ContextBlock (typeIs "context") [r])
   + length (decodedAs DividerBlock (typeIs "divider") [r])
   + length (decodedAs ImageBlock (typeIs "image") [r])
   + length (decodedAs SectionBlock (typeIs "section") [r]))%nat
  = if isBlockType (discriminator r) then 1%nat else 0%nat.
Proof.
  unfold Blocks_elementError, decodedAs, discriminator, isBlockType, typeIs; simpl.
  destruct (Unmarshal_map r) as [obj|e]; [|done].
  generalize (typeField obj); intros t.
  switch_on t; try done; by destruct (decode r).
Qed.

Lemma BlockElements_count_one r :
  BlockElements_elementError r = None ->
  (length (decodedAs ImageBlockElement (typeIs "image") [r])
   + length (decodedAs ButtonBlockElement (typeIs "button") [r])
   + length (decodedAs OverflowBlockElement (typeIs "overflow") [r])
   + length (decodedAs DatePickerBlockElement (typeIs "datepicker") [r])
   + length (decodedAs SelectBlockElement (typeIs "static_select") [r]))%nat
  = if isBlockElementType (discriminator r) then 1%nat else 0%nat.
Proof.
  unfold BlockElements_elementError, decodedAs, discriminator,
    isBlockElementType, typeIs; simpl.
  destruct (Unmarshal_map r) as [obj|e]; [|done].
  generalize (typeField obj); intros t.
  switch_on t; try done; by destruct (decode r).
Qed.

Lemma ContextElements_count_one r :
  ContextElements_elementError r = None ->
  (length (decodedAs ImageBlockElement (typeIs "image") [r])
   + length (decodedAs TextBlockObject isText [r]))%nat
  = if isContextElementType (discriminator r) then 1%nat else 0%nat.
Proof.
  unfold ContextElements_elementError, decodedAs, discriminator,
    isContextElementType, isText, typeIs, PlainTextType, MarkdownType; simpl.
  destruct (Unmarshal_map r) as [obj|e]; [|done].
  generalize (typeField obj); intros t.
  switch_on t; try done; by destruct (decode r).
Qed.

Lemma Blocks_size_extend b raw :
  Forall (fun r => Blocks_elementError r = None) raw ->
  Blocks_size (Blocks_extend b raw)
  = (Blocks_size b
     + length (filter (fun r => isBlockType (discriminator r) = true) raw))%nat.
Proof.
  intros Hall. revert b. induction Hall as [|r raw Hr _ IH]; intros b.
  - rewrite Blocks_extend_nil, filter_nil. simpl. lia.
  - change (r :: raw) with ([r] ++ raw).
    rewrite <- Blocks_extend_app, IH, filter_app, length_app.
    pose proof (Blocks_count_one r Hr) as H1.
    unfold decodedAs in H1; simpl in H1.
    unfold Blocks_size, Blocks_extend; simpl; rewrite !length_app.
    rewrite filter_cons, filter_nil.
    destruct (decide (isBlockType (discriminator r) = true)) as [Hy|Hn].
    + rewrite Hy in H1. simpl length. lia.
    + apply not_true_is_false in Hn. rewrite Hn in H1. simpl length. lia.
Qed.

Lemma BlockElements_size_extend b raw :
  Forall (fun r => BlockElements_elementError r = None) raw ->
  BlockElements_size (BlockElements_extend b raw)
  = (BlockElements_size b
     + length (filter (fun r => isBlockElementType (discriminator r) = true) raw))%nat.
Proof.
  intros Hall. revert b. induction Hall as [|r raw Hr _ IH]; intros b.
  - rewrite BlockElements_extend_nil, filter_nil. simpl. lia.
  - change (r :: raw) with ([r] ++ raw).
    rewrite <- BlockElements_extend_app, IH, filter_app, length_app.
    pose proof (BlockElements_count_one r Hr) as H1.
    unfold decodedAs in H1; simpl in H1.
    unfold BlockElements_size, BlockElements_extend; simpl; rewrite !length_app.
    rewrite filter_cons, filter_nil.
    destruct (decide (isBlockElementType (discriminator r) = true)) as [Hy|Hn].
    + rewrite Hy in H1. simpl length. lia.
    + apply not_true_is_false in Hn. rewrite Hn in H1. simpl length. lia.
Qed.

Lemma ContextElements_size_extend e raw :
  Forall (fun r => ContextElements_elementError r = None) raw ->
  ContextElements_size (ContextElements_extend e raw)
  = (ContextElements_size e
     + length (filter (fun r => isContextElementType (discriminator r) = true) raw))%nat.
Proof.
  intros Hall. revert e. induction Hall as [|r raw Hr _ IH]; intros e.
  - rewrite ContextElements_extend_nil, filter_nil. simpl. lia.
  - change (r :: raw) with ([r] ++ raw).
    rewrite <- ContextElements_extend_app, IH, filter_app, length_app.
    pose proof (ContextElements_count_one r Hr) as H1.
    unfold decodedAs in H1; simpl in H1.
    unfold ContextElements_size, ContextElements_extend; simpl; rewrite !length_app.
    rewrite filter_cons, filter_nil.
    destruct (decide (isContextElementType (discriminator r) = true)) as [Hy|Hn].
    + rewrite Hy in H1. simpl length. lia.
    + apply not_true_is_false in Hn. rewrite Hn in H1. simpl length. lia.
Qed.

(** An element accepted by the generic decode and recognized by no case
    raises no error. *)
Lemma Blocks_unrecognized_no_error r obj :
  Unmarshal_map r = Ok obj ->
  isBlockType (discriminator r) = false ->
  Blocks_elementError r = None.
Proof.
  intros Hobj Hun. rewrite (discriminator_Ok r obj Hobj) in Hun.
  pose proof (Blocks_body_unrecognized zeroBlocks r obj Hobj Hun) as H.
  rewrite Blocks_body_spec in H. by destruct (Blocks_elementError r).
Qed.

Lemma BlockElements_unrecognized_no_error r obj :
  Unmarshal_map r = Ok obj ->
  isBlockElementType (discriminator r) = false ->
  BlockElements_elementError r = None.
Proof.
  intros Hobj Hun. rewrite (discriminator_Ok r obj Hobj) in Hun.
  pose proof (BlockElements_body_unrecognized zeroBlockElements r obj Hobj Hun) as H.
  rewrite BlockElements_body_spec in H. by destruct (BlockElements_elementError r).
Qed.

Lemma ContextElements_unrecognized_no_error r obj :
  Unmarshal_map r = Ok obj ->
  isContextElementType (discriminator r) = false ->
  ContextElements_elementError r = None.
Proof.
  intros Hobj Hun. rewrite (discriminator_Ok r obj Hobj) in Hun.
  pose proof (ContextElements_body_unrecognized zeroContextElements r obj Hobj Hun) as H.
  rewrite ContextElements_body_spec in H.
  by destruct (ContextElements_elementError r).
Qed.

(** *** Encoding slices *)

Lemma encodeAll_Forall2 {T : Type} (enc : T -> result json) s js :
  Forall2 (fun x j => enc x = Ok j) s js -> encodeAll enc s = Ok js.
Proof.
  induction 1 as [|x j s js Hx _ IH]; simpl; [done|].
  by rewrite Hx, IH.
Qed.

Lemma Marshal_slice_Forall2 {T : Type} (enc : T -> result json) s js :
  Forall2 (fun x j => enc x = Ok j) s js ->
  Marshal_slice enc s = Ok (match js with [] => JNull | _ => JArr js end).
Proof.
  intros H. pose proof (encodeAll_Forall2 enc s js H) as Hall.
  unfold Marshal_slice. destruct H; [done|].
  by rewrite Hall.
Qed.

Lemma Forall2_encode_map {T U : Type} (f : T -> U) (enc : T -> result json)
  (enc' : U -> result json) s js :
  (forall x, enc' (f x) = enc x) ->
  Forall2 (fun x j => enc x = Ok j) s js ->
  Forall2 (fun y j => enc' y = Ok j) (map f s) js.
Proof.
  intros Hf. induction 1; simpl; constructor; [by rewrite Hf | done].
Qed.

Lemma toBlockElementSlice_encodes e js1 js2 js3 js4 js5 :
  Forall2 (fun x j => encode x = Ok j) (ImageElements e) js1 ->
  Forall2 (fun x j => encode x = Ok j) (ButtonElements e) js2 ->
  Forall2 (fun x j => encode x = Ok j) (OverflowElements e) js3 ->
  Forall2 (fun x j => encode x = Ok j) (DatePickerElements e) js4 ->
  Forall2 (fun x j => encode x = Ok j) (SelectElements e) js5 ->
  Forall2 (fun el j => encodeBlockElement el = Ok j) (toBlockElementSlice e)
    (js1 ++ js2 ++ js3 ++ js4 ++ js5).
Proof.
  intros H1 H2 H3 H4 H5. unfold toBlockElementSlice; simpl.
  rewrite <- !app_assoc.
  repeat apply Forall2_app;
    by eapply Forall2_encode_map; [|eassumption].
Qed.

Lemma toMixedElements_encodes e jsI jsT :
  Forall2 (fun x j => encode x = Ok j) (Ctx_ImageElements e) jsI ->
  Forall2 (fun x j => encode x = Ok j) (Ctx_TextObjects e) jsT ->
  Forall2 (fun el j => encodeMixedElement el = Ok j) (toMixedElements e)
    (jsI ++ jsT).
Proof.
  intros H1 H2. unfold toMixedElements; simpl.
  apply Forall2_app; by eapply Forall2_encode_map; [|eassumption].
Qed.

Lemma result_match_id {A : Type} (m : result A) :
  match m with Err err => Err err | Ok bytes => Ok bytes end = m.
Proof. by destruct m. Qed.

(** *** Elements that decode *)

Lemma ContextElements_text_no_error r (x : TextBlockObject) :
  isText (discriminator r) = true -> decode r = Ok x ->
  ContextElements_elementError r = None.
Proof.
  unfold ContextElements_elementError, discriminator.
  destruct (Unmarshal_map r) as [obj|e]; [|by vm_compute].
  simpl. by intros -> ->.
Qed.

Lemma ContextElements_image_no_error r (x : ImageBlockElement) :
  discriminator r = "image" -> decode r = Ok x ->
  ContextElements_elementError r = None.
Proof.
  unfold ContextElements_elementError, discriminator.
  destruct (Unmarshal_map r) as [obj|e]; [|done].
  simpl. by intros -> ->.
Qed.




End Facts.

(** ** The claims *)
Section Claims.

Context `{V : Variants}.

(** C9: the append operations route every element of the list to the
    end of the accumulator of its dynamic type, after the accumulator's
    prior contents and in the order of the list; an element of any other
    dynamic type changes nothing, and no call fails. *)
Theorem append_routes_by_dynamic_type :
  (forall (b : Blocks) (l : list Block),
      ActionBlocks (appendToBlocks b l) = ActionBlocks b ++ omap asActionBlock l
      /\ ContextBlocks (appendToBlocks b l) = ContextBlocks b ++ omap asContextBlock l
      /\ DividerBlocks (appendToBlocks b l) = DividerBlocks b ++ omap asDividerBlock l
      /\ ImageBlocks (appendToBlocks b l) = ImageBlocks b ++ omap asImageBlock l
      /\ SectionBlocks (appendToBlocks b l) = SectionBlocks b ++ omap asSectionBlock l)
  /\ (forall (e : BlockElements) (l : list BlockElement),
      ImageElements (appendToBlockElements e l)
      = ImageElements e ++ omap asImageElement l
      /\ ButtonElements (appendToBlockElements e l)
        = ButtonElements e ++ omap asButtonElement l
      /\ OverflowElements (appendToBlockElements e l)
        = OverflowElements e ++ omap asOverflowElement l
      /\ DatePickerElements (appendToBlockElements e l)
        = DatePickerElements e ++ omap asDatePickerElement l
      /\ SelectElements (appendToBlockElements e l)
        = SelectElements e ++ omap asSelectElement l)
  /\ (forall (b : Blocks) l1 (x : OtherBlock) l2,
      appendToBlocks b (l1 ++ Block_other x :: l2) = appendToBlocks b (l1 ++ l2))
  /\ (forall (e : BlockElements) l1 (x : OtherBlockElement) l2,
      appendToBlockElements e (l1 ++ Elem_other x :: l2)
      = appendToBlockElements e (l1 ++ l2)).
Proof.
  split; [exact appendToBlocks_fields|].
  split; [exact appendToBlockElements_fields|].
  split; intros b l1 x l2.
  - unfold appendToBlocks. by rewrite !foldl_app.
  - unfold appendToBlockElements. by rewrite !foldl_app.
Qed.

(** C4: [Accessory.MarshalJSON] encodes the first populated slot in the
    order image, button, overflow, date-picker, select, with that
    element's own encoder and no array around it; with no slot populated
    it encodes to [null]. *)
Theorem Accessory_marshal_first_populated :
  (forall a : Accessory,
      Accessory_MarshalJSON a
      = match firstPopulated (slotsInPriorityOrder a) with
        | Some el => encodeBlockElement el
        | None => Ok JNull
        end)
  /\ (forall x b o d s,
      Accessory_MarshalJSON (Build_Accessory (Some x) b o d s) = encode x)
  /\ (forall x o d s,
      Accessory_MarshalJSON (Build_Accessory None (Some x) o d s) = encode x)
  /\ (forall x d s,
      Accessory_MarshalJSON (Build_Accessory None None (Some x) d s) = encode x)
  /\ (forall x s,
      Accessory_MarshalJSON (Build_Accessory None None None (Some x) s) = encode x)
  /\ (forall x,
      Accessory_MarshalJSON (Build_Accessory None None None None (Some x)) = encode x)
  /\ Accessory_MarshalJSON zeroAccessory = Ok JNull.
Proof.
  assert (Hid : forall m : result json,
             match m with Err err => Err err | Ok bytes => Ok bytes end = m)
    by (by intros []).
  split.
  { intros [[i|] [b|] [o|] [d|] [s|]];
      unfold Accessory_MarshalJSON, toBlockElement; simpl;
      first [done | apply Hid]. }
  repeat split; intros; unfold Accessory_MarshalJSON, toBlockElement; simpl;
    first [done | apply Hid].
Qed.

(** C7 (amended): on the zero-valued [Accessory], decoding a JSON object
    that the generic decode accepts (it holds no number literal outside
    the [float64] range), whose [type] is the string [button] and whose
    payload decodes as a button element, sets the button slot to that
    element, leaves the four other slots unpopulated and returns no
    error. *)
Theorem Accessory_unmarshal_button :
  forall members obj (x : ButtonBlockElement),
    Unmarshal_map (JObj members) = Ok obj ->
    obj !! "type" = Some (JStr "button") ->
    decode (JObj members) = Ok x ->
    Accessory_UnmarshalJSON zeroAccessory (Encoded (JObj members))
    = (Build_Accessory None (Some x) None None None, None).
Proof.
  intros members obj x Hobj Htype Hx.
  unfold Accessory_UnmarshalJSON. cbn [Unmarshal_RawMessage].
  rewrite Hobj. unfold typeField. rewrite Htype.
  unfold Accessory_UnmarshalJSON_switch, unmarshalBlockElement.
  cbn [String.eqb Ascii.eqb Bool.eqb]. by rewrite Hx.
Qed.

(** C10 (amended): an element that is a JSON object accepted by the
    generic decode (it holds no number literal outside the [float64]
    range) and whose [type] member is absent or not a string has the empty
    discriminator, which no switch recognizes: every array decoder
    behaves as if the element were not in the array (no error, no
    accumulator changed), and [Accessory.UnmarshalJSON] returns no error
    and leaves every slot as it was. *)
Theorem untyped_object_is_skipped :
  forall members obj,
    Unmarshal_map (JObj members) = Ok obj ->
    (forall s, obj !! "type" <> Some (JStr s)) ->
    let r := JObj members in
    discriminator r = ""
    /\ isBlockType "" = false
    /\ isBlockElementType "" = false
    /\ isContextElementType "" = false
    /\ (forall (b : Blocks) pre post,
          Blocks_UnmarshalJSON b (Encoded (JArr (pre ++ r :: post)))
          = Blocks_UnmarshalJSON b (Encoded (JArr (pre ++ post))))
    /\ (forall (b : BlockElements) pre post,
          BlockElements_UnmarshalJSON b (Encoded (JArr (pre ++ r :: post)))
          = BlockElements_UnmarshalJSON b (Encoded (JArr (pre ++ post))))
    /\ (forall (e : ContextElements) pre post,
          ContextElements_UnmarshalJSON e (Encoded (JArr (pre ++ r :: post)))
          = ContextElements_UnmarshalJSON e (Encoded (JArr (pre ++ post))))
    /\ (forall b : Blocks,
          Blocks_UnmarshalJSON b (Encoded (JArr [r])) = (b, None))
    /\ (forall b : BlockElements,
          BlockElements_UnmarshalJSON b (Encoded (JArr [r])) = (b, None))
    /\ (forall e : ContextElements,
          ContextElements_UnmarshalJSON e (Encoded (JArr [r])) = (e, None))
    /\ (forall a : Accessory,
          Accessory_UnmarshalJSON a (Encoded r) = (a, None)).
Proof.
  intros members obj Hobj Htype r.
  pose proof (typeField_not_string obj Htype) as Hempty.
  assert (HB : forall b, Blocks_UnmarshalJSON_body b r = Ok b).
  { intros b. apply (Blocks_body_unrecognized b r obj Hobj). by rewrite Hempty. }
  assert (HE : forall b, BlockElements_UnmarshalJSON_body b r = Ok b).
  { intros b. apply (BlockElements_body_unrecognized b r obj Hobj). by rewrite Hempty. }
  assert (HC : forall e, ContextElements_UnmarshalJSON_body e r = Ok e).
  { intros e. apply (ContextElements_body_unrecognized e r obj Hobj). by rewrite Hempty. }
  split; [by rewrite (discriminator_Ok r obj Hobj)|].
  do 3 (split; [done|]).
  unfold Blocks_UnmarshalJSON, BlockElements_UnmarshalJSON,
    ContextElements_UnmarshalJSON.
  cbn [Unmarshal_RawMessages].
  split; [intros; by apply rangeLoop_skips|].
  split; [intros; by apply rangeLoop_skips|].
  split; [intros; by apply rangeLoop_skips|].
  split; [intros b; simpl; by rewrite HB|].
  split; [intros b; simpl; by rewrite HE|].
  split; [intros e; simpl; by rewrite HC|].
  intros a. subst r. unfold Accessory_UnmarshalJSON.
  cbn [Unmarshal_RawMessage]. rewrite Hobj, Hempty.
  by rewrite Accessory_switch_unrecognized.
Qed.

(** C8 (amended): when the outer value of the input is not an array, no
    array decoder decodes anything and the receiver is left as it was;
    the call returns an error unless the input is the JSON value [null],
    for which it returns no error. *)
Theorem non_array_input_decodes_nothing :
  forall data : bytes,
    (forall items, data <> Encoded (JArr items)) ->
    exists err : option error,
      (err = None <-> data = Encoded JNull)
      /\ (forall b : Blocks, Blocks_UnmarshalJSON b data = (b, err))
      /\ (forall b : BlockElements, BlockElements_UnmarshalJSON b data = (b, err))
      /\ (forall e : ContextElements, ContextElements_UnmarshalJSON e data = (e, err)).
Proof.
  intros data Hnot.
  unfold Blocks_UnmarshalJSON, BlockElements_UnmarshalJSON,
    ContextElements_UnmarshalJSON.
  destruct data as [|[]]; simpl;
    try (eexists; split; [|by repeat split]; by split).
  by destruct (Hnot items).
Qed.


(** C2 (amended): in an array of JSON objects accepted by the generic
    decode (none holds a number literal outside the [float64] range), in
    which every element of a recognized type decodes into its concrete
    structure, the elements of unrecognized type are skipped: the decode
    call returns no error, the receiver collects exactly what it would
    collect from the recognized elements alone, and the number of
    collected elements is the number of recognized elements.  Whatever the
    other elements are, a decode call on an array with such an element
    returns what it returns on the array without it. *)
Theorem unrecognized_type_is_skipped :
  (forall (b : Blocks) raw,
      Forall wellFormedObject raw ->
      Forall (fun r => isBlockType (discriminator r) = true ->
                       Blocks_elementError r = None) raw ->
      let recognized := filter (fun r => isBlockType (discriminator r) = true) raw in
      Blocks_UnmarshalJSON b (Encoded (JArr raw)) = (Blocks_extend b raw, None)
      /\ Blocks_extend b raw = Blocks_extend b recognized
      /\ Blocks_size (Blocks_extend b raw) = (Blocks_size b + length recognized)%nat)
  /\ (forall (b : BlockElements) raw,
      Forall wellFormedObject raw ->
      Forall (fun r => isBlockElementType (discriminator r) = true ->
                       BlockElements_elementError r = None) raw ->
      let recognized :=
        filter (fun r => isBlockElementType (discriminator r) = true) raw in
      BlockElements_UnmarshalJSON b (Encoded (JArr raw))
      = (BlockElements_extend b raw, None)
      /\ BlockElements_extend b raw = BlockElements_extend b recognized
      /\ BlockElements_size (BlockElements_extend b raw)
         = (BlockElements_size b + length recognized)%nat)
  /\ (forall (c : ContextElements) raw,
      Forall wellFormedObject raw ->
      Forall (fun r => isContextElementType (discriminator r) = true ->
                       ContextElements_elementError r = None) raw ->
      let recognized :=
        filter (fun r => isContextElementType (discriminator r) = true) raw in
      ContextElements_UnmarshalJSON c (Encoded (JArr raw))
      = (ContextElements_extend c raw, None)
      /\ ContextElements_extend c raw = ContextElements_extend c recognized
      /\ ContextElements_size (ContextElements_extend c raw)
         = (ContextElements_size c + length recognized)%nat)
  /\ (forall u pre post,
      wellFormedObject u ->
      (isBlockType (discriminator u) = false ->
       forall b : Blocks,
         Blocks_UnmarshalJSON b (Encoded (JArr (pre ++ u :: post)))
         = Blocks_UnmarshalJSON b (Encoded (JArr (pre ++ post))))
      /\ (isBlockElementType (discriminator u) = false ->
          forall b : BlockElements,
            BlockElements_UnmarshalJSON b (Encoded (JArr (pre ++ u :: post)))
            = BlockElements_UnmarshalJSON b (Encoded (JArr (pre ++ post))))
      /\ (isContextElementType (discriminator u) = false ->
          forall c : ContextElements,
            ContextElements_UnmarshalJSON c (Encoded (JArr (pre ++ u :: post)))
            = ContextElements_UnmarshalJSON c (Encoded (JArr (pre ++ post))))).
Proof.
  unfold Blocks_UnmarshalJSON, BlockElements_UnmarshalJSON,
    ContextElements_UnmarshalJSON; cbn [Unmarshal_RawMessages].
  split; [|split; [|split]];
    [intros b raw Hwf Hrec | intros b raw Hwf Hrec | intros b raw Hwf Hrec
    | intros u pre post (members & obj & _ & Hobj);
      rewrite (discriminator_Ok u obj Hobj);
      split; [|split]; intros Hun b; apply rangeLoop_skips; intros b';
      [ by apply (Blocks_body_unrecognized b' u obj)
      | by apply (BlockElements_body_unrecognized b' u obj)
      | by apply (ContextElements_body_unrecognized b' u obj) ] ].
  - assert (Hall : Forall (fun r => Blocks_elementError r = None) raw).
    { rewrite Forall_forall in *. intros r Hin.
      destruct (Hwf r Hin) as (members & obj & _ & Hobj).
      destruct (isBlockType (discriminator r)) eqn:E; [by apply Hrec|].
      by apply (Blocks_unrecognized_no_error r obj). }
    split; [|split].
    + apply (rangeLoop_accepts _ _ Blocks_elementError Blocks_extend); auto using
        Blocks_body_spec, Blocks_extend_nil, Blocks_extend_app.
    + unfold Blocks_extend.
      rewrite !(decodedAs_recognized _ _ isBlockType); [done|..];
        intros t; unfold isBlockType; intros ->; by rewrite ?orb_true_r.
    + by apply Blocks_size_extend.
  - assert (Hall : Forall (fun r => BlockElements_elementError r = None) raw).
    { rewrite Forall_forall in *. intros r Hin.
      destruct (Hwf r Hin) as (members & obj & _ & Hobj).
      destruct (isBlockElementType (discriminator r)) eqn:E; [by apply Hrec|].
      by apply (BlockElements_unrecognized_no_error r obj). }
    split; [|split].
    + apply (rangeLoop_accepts _ _ BlockElements_elementError BlockElements_extend);
        auto using BlockElements_body_spec, BlockElements_extend_nil,
          BlockElements_extend_app.
    + unfold BlockElements_extend.
      rewrite !(decodedAs_recognized _ _ isBlockElementType); [done|..];
        intros t; unfold isBlockElementType; intros ->; by rewrite ?orb_true_r.
    + by apply BlockElements_size_extend.
  - assert (Hall : Forall (fun r => ContextElements_elementError r = None) raw).
    { rewrite Forall_forall in *. intros r Hin.
      destruct (Hwf r Hin) as (members & obj & _ & Hobj).
      destruct (isContextElementType (discriminator r)) eqn:E; [by apply Hrec|].
      by apply (ContextElements_unrecognized_no_error r obj). }
    split; [|split].
    + apply (rangeLoop_accepts _ _ ContextElements_elementError
               ContextElements_extend);
        auto using ContextElements_body_spec, ContextElements_extend_nil,
          ContextElements_extend_app.
    + unfold ContextElements_extend.
      rewrite !(decodedAs_recognized _ _ isContextElementType); [done|..];
        intros t; unfold isContextElementType; intros ->; by rewrite ?orb_true_r.
    + by apply ContextElements_size_extend.
Qed.

(** C6 (amended): when the elements of a [BlockElements] container
    encode to [js1] (images), [js2] (buttons), [js3] (overflows), [js4]
    (date pickers) and [js5] (selects), [MarshalJSON] produces the flat
    JSON array [js1 ++ js2 ++ js3 ++ js4 ++ js5] if the container holds
    at least one element, and the JSON value [null] if it holds none. *)
Theorem BlockElements_marshal_concatenates :
  forall (e : BlockElements) js1 js2 js3 js4 js5,
    Forall2 (fun x j => encode x = Ok j) (ImageElements e) js1 ->
    Forall2 (fun x j => encode x = Ok j) (ButtonElements e) js2 ->
    Forall2 (fun x j => encode x = Ok j) (OverflowElements e) js3 ->
    Forall2 (fun x j => encode x = Ok j) (DatePickerElements e) js4 ->
    Forall2 (fun x j => encode x = Ok j) (SelectElements e) js5 ->
    BlockElements_MarshalJSON e
    = Ok (match js1 ++ js2 ++ js3 ++ js4 ++ js5 with
          | [] => JNull
          | out => JArr out
          end).
Proof.
  intros e js1 js2 js3 js4 js5 H1 H2 H3 H4 H5.
  unfold BlockElements_MarshalJSON. rewrite result_match_id.
  rewrite (Marshal_slice_Forall2 _ _ (js1 ++ js2 ++ js3 ++ js4 ++ js5));
    [|by apply toBlockElementSlice_encodes].
  by destruct (js1 ++ js2 ++ js3 ++ js4 ++ js5).
Qed.

(** C3 (amended): when the images of a [ContextElements] container
    encode to [jsI] and its text objects to [jsT], [MarshalJSON] produces
    the JSON array [jsI ++ jsT] (all images first, then all text objects,
    each group in stored order) if the container holds at least one
    element, and the JSON value [null] if it holds none.  In particular,
    decoding [[mrkdwn, image, plain_text]] into the zero container and
    encoding the result gives [[image, mrkdwn, plain_text]]. *)
Theorem ContextElements_marshal_images_first :
  (forall (c : ContextElements) jsI jsT,
      Forall2 (fun x j => encode x = Ok j) (Ctx_ImageElements c) jsI ->
      Forall2 (fun x j => encode x = Ok j) (Ctx_TextObjects c) jsT ->
      ContextElements_MarshalJSON c
      = Ok (match jsI ++ jsT with
            | [] => JNull
            | out => JArr out
            end))
  /\ (forall m i p (tm tp : TextBlockObject) (xi : ImageBlockElement) jm ji jp,
      discriminator m = "mrkdwn" -> decode m = Ok tm -> encode tm = Ok jm ->
      discriminator i = "image" -> decode i = Ok xi -> encode xi = Ok ji ->
      discriminator p = "plain_text" -> decode p = Ok tp -> encode tp = Ok jp ->
      exists c,
        ContextElements_UnmarshalJSON zeroContextElements (Encoded (JArr [m; i; p]))
        = (c, None)
        /\ Ctx_ImageElements c = [xi]
        /\ Ctx_TextObjects c = [tm; tp]
        /\ ContextElements_MarshalJSON c = Ok (JArr [ji; jm; jp])).
Proof.
  assert (Hgen : forall (c : ContextElements) jsI jsT,
      Forall2 (fun x j => encode x = Ok j) (Ctx_ImageElements c) jsI ->
      Forall2 (fun x j => encode x = Ok j) (Ctx_TextObjects c) jsT ->
      ContextElements_MarshalJSON c
      = Ok (match jsI ++ jsT with [] => JNull | out => JArr out end)).
  { intros c jsI jsT HI HT.
    unfold ContextElements_MarshalJSON. rewrite result_match_id.
    rewrite (Marshal_slice_Forall2 _ _ (jsI ++ jsT));
      [|by apply toMixedElements_encodes].
    by destruct (jsI ++ jsT). }
  split; [exact Hgen|].
  intros m i p tm tp xi jm ji jp Hm Hdm Hem Hi Hdi Hei Hp Hdp Hep.
  exists (ContextElements_extend zeroContextElements [m; i; p]).
  assert (HI : decodedAs ImageBlockElement (typeIs "image") [m; i; p] = [xi]).
  { unfold decodedAs; simpl. by rewrite Hm, Hi, Hp, Hdi. }
  assert (HT : decodedAs TextBlockObject isText [m; i; p] = [tm; tp]).
  { unfold decodedAs; simpl. by rewrite Hm, Hi, Hp, Hdm, Hdp. }
  split; [|split; [exact HI | split; [exact HT|]]].
  - unfold ContextElements_UnmarshalJSON; cbn [Unmarshal_RawMessages].
    apply (rangeLoop_accepts _ _ ContextElements_elementError
             ContextElements_extend);
      auto using ContextElements_body_spec, ContextElements_extend_nil,
        ContextElements_extend_app.
    repeat constructor.
    + apply (ContextElements_text_no_error m tm); [by rewrite Hm | done].
    + by apply (ContextElements_image_no_error i xi).
    + apply (ContextElements_text_no_error p tp); [by rewrite Hp | done].
  - rewrite (Hgen _ [ji] [jm; jp]); [done|..];
      unfold ContextElements_extend, zeroContextElements;
      cbn [Ctx_ImageElements Ctx_TextObjects app].
    + rewrite HI. by repeat constructor.
    + rewrite HT. by repeat constructor.
Qed.


End Claims.

(** ** Further properties of the operations *)
Section RangeLoopRun.

Variable B : Type.
Variable body : B -> RawMessage -> result B.
Variable rejects : RawMessage -> option error.
Variable extend : B -> list RawMessage -> B.

Hypothesis body_spec : forall b r,
  body b r = match rejects r with
             | Some e => Err e
             | None => Ok (extend b [r])
             end.
Hypothesis extend_nil : forall b, extend b [] = b.
Hypothesis extend_app : forall b l1 l2,
  extend (extend b l1) l2 = extend b (l1 ++ l2).

Lemma rangeLoop_run b raw :
  rangeLoop body b raw = (extend b (okPrefix rejects raw), firstError rejects raw).
Proof.
  revert b. induction raw as [|r raw IH]; intros b; simpl.
  - by rewrite extend_nil.
  - rewrite body_spec. destruct (rejects r) as [e|].
    + by rewrite extend_nil.
    + rewrite IH. by rewrite extend_app.
Qed.

Lemma okPrefix_app_accepted l1 l2 :
  firstError rejects l1 = None ->
  okPrefix rejects (l1 ++ l2) = l1 ++ okPrefix rejects l2
  /\ firstError rejects (l1 ++ l2) = firstError rejects l2.
Proof.
  induction l1 as [|r l1 IH]; simpl; [done|].
  destruct (rejects r); [done|]. intros H.
  destruct (IH H) as [-> ->]. done.
Qed.

Lemma okPrefix_length raw : (length (okPrefix rejects raw) <= length raw)%nat.
Proof.
  induction raw as [|r raw IH]; simpl; [done|].
  destruct (rejects r); simpl; lia.
Qed.

End RangeLoopRun.

Section Extras.

Context `{V : Variants}.

Lemma Blocks_run b raw :
  rangeLoop Blocks_UnmarshalJSON_body b raw
  = (Blocks_extend b (okPrefix Blocks_elementError raw),
     firstError Blocks_elementError raw).
Proof.
  apply rangeLoop_run; auto using Blocks_body_spec, Blocks_extend_nil,
    Blocks_extend_app.
Qed.

Lemma BlockElements_run b raw :
  rangeLoop BlockElements_UnmarshalJSON_body b raw
  = (BlockElements_extend b (okPrefix BlockElements_elementError raw),
     firstError BlockElements_elementError raw).
Proof.
  apply rangeLoop_run; auto using BlockElements_body_spec,
    BlockElements_extend_nil, BlockElements_extend_app.
Qed.

Lemma ContextElements_run c raw :
  rangeLoop ContextElements_UnmarshalJSON_body c raw
  = (ContextElements_extend c (okPrefix ContextElements_elementError raw),
     firstError ContextElements_elementError raw).
Proof.
  apply rangeLoop_run; auto using ContextElements_body_spec,
    ContextElements_extend_nil, ContextElements_extend_app.
Qed.

Lemma Blocks_merge_zero b : Blocks_merge b zeroBlocks = b.
Proof. destruct b; unfold Blocks_merge; simpl. by rewrite !app_nil_r. Qed.

Lemma BlockElements_merge_zero b : BlockElements_merge b zeroBlockElements = b.
Proof. destruct b; unfold BlockElements_merge; simpl. by rewrite !app_nil_r. Qed.

Lemma ContextElements_merge_zero c : ContextElements_merge c zeroContextElements = c.
Proof. destruct c; unfold ContextElements_merge; simpl. by rewrite !app_nil_r. Qed.

(** X1: what an array decoder collects, and the error it returns, do not
    depend on what the receiver already holds: decoding into any receiver
    appends, accumulator by accumulator, what decoding the same input
    into the zero container collects, and returns the same error. *)
Theorem decode_appends_to_receiver :
  (forall (b : Blocks) data,
      Blocks_UnmarshalJSON b data
      = (Blocks_merge b (fst (Blocks_UnmarshalJSON zeroBlocks data)),
         snd (Blocks_UnmarshalJSON zeroBlocks data)))
  /\ (forall (b : BlockElements) data,
      BlockElements_UnmarshalJSON b data
      = (BlockElements_merge b
           (fst (BlockElements_UnmarshalJSON zeroBlockElements data)),
         snd (BlockElements_UnmarshalJSON zeroBlockElements data)))
  /\ (forall (c : ContextElements) data,
      ContextElements_UnmarshalJSON c data
      = (ContextElements_merge c
           (fst (ContextElements_UnmarshalJSON zeroContextElements data)),
         snd (ContextElements_UnmarshalJSON zeroContextElements data))).
Proof.
  unfold Blocks_UnmarshalJSON, BlockElements_UnmarshalJSON,
    ContextElements_UnmarshalJSON.
  split; [|split]; intros b data; destruct (Unmarshal_RawMessages data) as [raw|e];
    simpl.
  - by rewrite !Blocks_run.
  - by rewrite Blocks_merge_zero.
  - by rewrite !BlockElements_run.
  - by rewrite BlockElements_merge_zero.
  - by rewrite !ContextElements_run.
  - by rewrite ContextElements_merge_zero.
Qed.

(** X2: a receiver that is reused accumulates: when decoding a first
    array returns no error, decoding a second array into the resulting
    receiver gives what one decode call gives on the two arrays joined. *)
Theorem decode_twice_accumulates :
  (forall (b : Blocks) raw1 raw2,
      snd (Blocks_UnmarshalJSON b (Encoded (JArr raw1))) = None ->
      Blocks_UnmarshalJSON (fst (Blocks_UnmarshalJSON b (Encoded (JArr raw1))))
        (Encoded (JArr raw2))
      = Blocks_UnmarshalJSON b (Encoded (JArr (raw1 ++ raw2))))
  /\ (forall (b : BlockElements) raw1 raw2,
      snd (BlockElements_UnmarshalJSON b (Encoded (JArr raw1))) = None ->
      BlockElements_UnmarshalJSON
        (fst (BlockElements_UnmarshalJSON b (Encoded (JArr raw1))))
        (Encoded (JArr raw2))
      = BlockElements_UnmarshalJSON b (Encoded (JArr (raw1 ++ raw2))))
  /\ (forall (c : ContextElements) raw1 raw2,
      snd (ContextElements_UnmarshalJSON c (Encoded (JArr raw1))) = None ->
      ContextElements_UnmarshalJSON
        (fst (ContextElements_UnmarshalJSON c (Encoded (JArr raw1))))
        (Encoded (JArr raw2))
      = ContextElements_UnmarshalJSON c (Encoded (JArr (raw1 ++ raw2)))).
Proof.
  unfold Blocks_UnmarshalJSON, BlockElements_UnmarshalJSON,
    ContextElements_UnmarshalJSON; cbn [Unmarshal_RawMessages].
  split; [|split]; intros b raw1 raw2.
  - rewrite !Blocks_run; cbn [fst snd]. intros H.
    pose proof (okPrefix_app_accepted Blocks_elementError raw1 raw2 H) as [E1 E2].
    unfold RawMessage in E1, E2; rewrite E1, E2.
    pose proof (okPrefix_app_accepted Blocks_elementError raw1 [] H) as [H1 _].
    rewrite app_nil_r in H1; simpl in H1; rewrite app_nil_r in H1.
    by rewrite H1, Blocks_extend_app.
  - rewrite !BlockElements_run; cbn [fst snd]. intros H.
    pose proof (okPrefix_app_accepted BlockElements_elementError raw1 raw2 H) as [E1 E2].
    unfold RawMessage in E1, E2; rewrite E1, E2.
    pose proof (okPrefix_app_accepted BlockElements_elementError raw1 [] H) as [H1 _].
    rewrite app_nil_r in H1; simpl in H1; rewrite app_nil_r in H1.
    by rewrite H1, BlockElements_extend_app.
  - rewrite !ContextElements_run; cbn [fst snd]. intros H.
    pose proof (okPrefix_app_accepted ContextElements_elementError raw1 raw2 H) as [E1 E2].
    unfold RawMessage in E1, E2; rewrite E1, E2.
    pose proof (okPrefix_app_accepted ContextElements_elementError raw1 [] H) as [H1 _].
    rewrite app_nil_r in H1; simpl in H1; rewrite app_nil_r in H1.
    by rewrite H1, ContextElements_extend_app.
Qed.

Lemma Blocks_eq (x y : Blocks) :
  ActionBlocks x = ActionBlocks y -> ContextBlocks x = ContextBlocks y ->
  DividerBlocks x = DividerBlocks y -> ImageBlocks x = ImageBlocks y ->
  SectionBlocks x = SectionBlocks y -> x = y.
Proof. destruct x, y; simpl; congruence. Qed.

Lemma BlockElements_eq (x y : BlockElements) :
  ImageElements x = ImageElements y -> ButtonElements x = ButtonElements y ->
  OverflowElements x = OverflowElements y ->
  DatePickerElements x = DatePickerElements y ->
  SelectElements x = SelectElements y -> x = y.
Proof. destruct x, y; simpl; congruence. Qed.

Lemma Blocks_variant_groups_one r :
  omap asActionBlock (omap Blocks_variant [r]) = decodedAs ActionBlock (typeIs "actions") [r]
  /\ omap asContextBlock (omap Blocks_variant [r])
     = decodedAs ContextBlock (typeIs "context") [r]
  /\ omap asDividerBlock (omap Blocks_variant [r])
     = decodedAs DividerBlock (typeIs "divider") [r]
  /\ omap asImageBlock (omap Blocks_variant [r]) = decodedAs ImageBlock (typeIs "image") [r]
  /\ omap asSectionBlock (omap Blocks_variant [r])
     = decodedAs SectionBlock (typeIs "section") [r].
Proof.
  unfold decodedAs, Blocks_variant, discriminator, typeIs; simpl.
  destruct (Unmarshal_map r) as [obj|e]; simpl; [|done].
  generalize (typeField obj); intros t.
  switch_on t; try done; by destruct (decode r).
Qed.

Lemma Blocks_variant_groups l :
  omap asActionBlock (omap Blocks_variant l) = decodedAs ActionBlock (typeIs "actions") l
  /\ omap asContextBlock (omap Blocks_variant l)
     = decodedAs ContextBlock (typeIs "context") l
  /\ omap asDividerBlock (omap Blocks_variant l)
     = decodedAs DividerBlock (typeIs "divider") l
  /\ omap asImageBlock (omap Blocks_variant l) = decodedAs ImageBlock (typeIs "image") l
  /\ omap asSectionBlock (omap Blocks_variant l)
     = decodedAs SectionBlock (typeIs "section") l.
Proof.
  induction l as [|r l (IH1 & IH2 & IH3 & IH4 & IH5)]; [done|].
  change (r :: l) with ([r] ++ l).
  rewrite !omap_app, !decodedAs_app, IH1, IH2, IH3, IH4, IH5.
  destruct (Blocks_variant_groups_one r) as (-> & -> & -> & -> & ->). done.
Qed.

Lemma BlockElements_variant_groups_one r :
  omap asImageElement (omap BlockElements_variant [r])
  = decodedAs ImageBlockElement (typeIs "image") [r]
  /\ omap asButtonElement (omap BlockElements_variant [r])
     = decodedAs ButtonBlockElement (typeIs "button") [r]
  /\ omap asOverflowElement (omap BlockElements_variant [r])
     = decodedAs OverflowBlockElement (typeIs "overflow") [r]
  /\ omap asDatePickerElement (omap BlockElements_variant [r])
     = decodedAs DatePickerBlockElement (typeIs "datepicker") [r]
  /\ omap asSelectElement (omap BlockElements_variant [r])
     = decodedAs SelectBlockElement (typeIs "static_select") [r].
Proof.
  unfold decodedAs, BlockElements_variant, discriminator, typeIs; simpl.
  destruct (Unmarshal_map r) as [obj|e]; simpl; [|done].
  generalize (typeField obj); intros t.
  switch_on t; try done; by destruct (decode r).
Qed.

Lemma BlockElements_variant_groups l :
  omap asImageElement (omap BlockElements_variant l)
  = decodedAs ImageBlockElement (typeIs "image") l
  /\ omap asButtonElement (omap BlockElements_variant l)
     = decodedAs ButtonBlockElement (typeIs "button") l
  /\ omap asOverflowElement (omap BlockElements_variant l)
     = decodedAs OverflowBlockElement (typeIs "overflow") l
  /\ omap asDatePickerElement (omap BlockElements_variant l)
     = decodedAs DatePickerBlockElement (typeIs "datepicker") l
  /\ omap asSelectElement (omap BlockElements_variant l)
     = decodedAs SelectBlockElement (typeIs "static_select") l.
Proof.
  induction l as [|r l (IH1 & IH2 & IH3 & IH4 & IH5)]; [done|].
  change (r :: l) with ([r] ++ l).
  rewrite !omap_app, !decodedAs_app, IH1, IH2, IH3, IH4, IH5.
  destruct (BlockElements_variant_groups_one r) as (-> & -> & -> & -> & ->). done.
Qed.

Lemma Blocks_extend_is_append b l :
  Blocks_extend b l = appendToBlocks b (omap Blocks_variant l).
Proof.
  destruct (appendToBlocks_fields b (omap Blocks_variant l))
    as (H1 & H2 & H3 & H4 & H5).
  destruct (Blocks_variant_groups l) as (G1 & G2 & G3 & G4 & G5).
  apply Blocks_eq; unfold Blocks_extend; simpl; congruence.
Qed.

Lemma BlockElements_extend_is_append b l :
  BlockElements_extend b l = appendToBlockElements b (omap BlockElements_variant l).
Proof.
  destruct (appendToBlockElements_fields b (omap BlockElements_variant l))
    as (H1 & H2 & H3 & H4 & H5).
  destruct (BlockElements_variant_groups l) as (G1 & G2 & G3 & G4 & G5).
  apply BlockElements_eq; unfold BlockElements_extend; simpl; congruence.
Qed.

Lemma omap_map_Some {A C : Type} (f : A -> C) (g : C -> option A) (l : list A) :
  (forall x, g (f x) = Some x) -> omap g (map f l) = l.
Proof. intros H. induction l as [|x l IH]; csimpl; [done|]. by rewrite H, IH. Qed.

Lemma omap_map_None {A C D : Type} (f : A -> C) (g : C -> option D) (l : list A) :
  (forall x, g (f x) = None) -> omap g (map f l) = [].
Proof. intros H. induction l as [|x l IH]; csimpl; [done|]. by rewrite H, IH. Qed.

(** X3: an array decoder is its append operation applied to the typed
    variants of the elements that precede the first failing element: the
    receiver after [UnmarshalJSON] is the receiver after [appendToBlocks]
    (resp. [appendToBlockElements]) on those variants, and the error is
    that of the first failing element, if there is one. *)
Theorem decode_is_append_of_variants :
  (forall (b : Blocks) raw,
      Blocks_UnmarshalJSON b (Encoded (JArr raw))
      = (appendToBlocks b
           (omap Blocks_variant (okPrefix Blocks_elementError raw)),
         firstError Blocks_elementError raw))
  /\ (forall (b : BlockElements) raw,
      BlockElements_UnmarshalJSON b (Encoded (JArr raw))
      = (appendToBlockElements b
           (omap BlockElements_variant (okPrefix BlockElements_elementError raw)),
         firstError BlockElements_elementError raw)).
Proof.
  unfold Blocks_UnmarshalJSON, BlockElements_UnmarshalJSON;
    cbn [Unmarshal_RawMessages].
  split; intros b raw.
  - by rewrite Blocks_run, Blocks_extend_is_append.
  - by rewrite BlockElements_run, BlockElements_extend_is_append.
Qed.

(** X4: flattening a [BlockElements] container with [toBlockElementSlice]
    and appending the slice to a container with [appendToBlockElements]
    concatenates the two containers accumulator by accumulator; appended
    to the zero container, the slice gives the container back. *)
Theorem slice_then_append_restores :
  (forall b e : BlockElements,
      appendToBlockElements b (toBlockElementSlice e) = BlockElements_merge b e)
  /\ (forall e : BlockElements,
      appendToBlockElements zeroBlockElements (toBlockElementSlice e) = e).
Proof.
  assert (H : forall b e : BlockElements,
             appendToBlockElements b (toBlockElementSlice e) = BlockElements_merge b e).
  { intros b e.
    destruct (appendToBlockElements_fields b (toBlockElementSlice e))
      as (H1 & H2 & H3 & H4 & H5).
    apply BlockElements_eq; unfold BlockElements_merge; cbn [ImageElements
      ButtonElements OverflowElements DatePickerElements SelectElements];
      [rewrite H1 | rewrite H2 | rewrite H3 | rewrite H4 | rewrite H5];
      f_equal; unfold toBlockElementSlice; cbn [app];
      rewrite !omap_app;
      repeat first
        [ rewrite omap_map_Some by done
        | rewrite omap_map_None by done ];
      simpl; by rewrite ?app_nil_r. }
  split; [exact H|].
  intros e. rewrite H. destruct e; unfold BlockElements_merge; simpl. done.
Qed.

(** X5: appending a list of interface values to the zero container and
    flattening the result keeps exactly the values of the five listed
    dynamic types, each once, regrouped by kind. *)
Theorem append_then_slice_regroups :
  forall l : list BlockElement,
    toBlockElementSlice (appendToBlockElements zeroBlockElements l)
    ≡ₚ filter (fun el => isListedElement el = true) l.
Proof.
  intros l.
  destruct (appendToBlockElements_fields zeroBlockElements l)
    as (H1 & H2 & H3 & H4 & H5).
  unfold toBlockElementSlice; cbn [app]. rewrite H1, H2, H3, H4, H5.
  cbn [zeroBlockElements ImageElements ButtonElements OverflowElements
       DatePickerElements SelectElements app].
  clear. induction l as [|x l IH]; [done|].
  rewrite filter_cons.
  destruct x; simpl; rewrite ?map_app; simpl;
    rewrite <- ?Permutation_middle; try by constructor.
  exact IH.
Qed.

(** X6: [Accessory.UnmarshalJSON] writes at most one slot and never
    clears one: the receiver after the call is the receiver before it with
    the slots that the same call populates in the zero [Accessory]
    written over it; that call populates at most one slot; the error does
    not depend on the receiver, and when an error is returned the
    receiver is left exactly as it was. *)
Theorem Accessory_decode_overlays :
  forall (a : Accessory) (data : bytes),
    Accessory_UnmarshalJSON a data
    = (Accessory_overlay a (fst (Accessory_UnmarshalJSON zeroAccessory data)),
       snd (Accessory_UnmarshalJSON zeroAccessory data))
    /\ (populatedSlots (fst (Accessory_UnmarshalJSON zeroAccessory data)) <= 1)%nat
    /\ (snd (Accessory_UnmarshalJSON zeroAccessory data) <> None ->
        fst (Accessory_UnmarshalJSON a data) = a).
Proof.
  intros a data. unfold Accessory_UnmarshalJSON.
  destruct a as [i b o d s].
  assert (Hzero : (populatedSlots zeroAccessory <= 1)%nat)
    by (unfold populatedSlots; simpl; lia).
  destruct data as [|r]; simpl; [by repeat split|].
  destruct (Unmarshal_map r) as [obj|e]; simpl; [|by repeat split].
  unfold Accessory_UnmarshalJSON_switch, unmarshalBlockElement.
  generalize (typeField obj); intros t.
  switch_on t; try (destruct (decode r); simpl);
    repeat split; first [done | unfold populatedSlots; simpl; lia].
Qed.

(** X7: a slot populated before the call keeps its priority after it:
    when the image slot of the receiver is populated, decoding any value
    that is not of type [image] into it, successfully or not, leaves
    [MarshalJSON] encoding that image, whatever the call has decoded. *)
Theorem Accessory_populated_image_keeps_winning :
  forall (a : Accessory) (y : ImageBlockElement) (r : RawMessage),
    ImageElement a = Some y ->
    discriminator r <> "image" ->
    Accessory_MarshalJSON (fst (Accessory_UnmarshalJSON a (Encoded r))) = encode y.
Proof.
  intros [i b o d s] y r Hi Hne. simpl in Hi; subst i.
  unfold Accessory_UnmarshalJSON, discriminator in *. cbn [Unmarshal_RawMessage].
  assert (Hm : forall a', ImageElement a' = Some y -> Accessory_MarshalJSON a' = encode y).
  { intros a' H. unfold Accessory_MarshalJSON, toBlockElement. rewrite H. simpl.
    by destruct (encode y). }
  destruct (Unmarshal_map r) as [obj|e]; [|by apply Hm].
  unfold Accessory_UnmarshalJSON_switch, unmarshalBlockElement.
  revert Hne. generalize (typeField obj); intros t.
  switch_on t; intros Hne; try done;
    try (destruct (decode r); simpl); by apply Hm.
Qed.

(** X8: decoding into the zero [Accessory] an element of a recognized
    kind that round-trips through the structure of its kind populates
    exactly one slot, and encoding the result gives the element back. *)
Theorem Accessory_decode_then_encode :
  forall r : RawMessage,
    BlockElement_roundTrips r ->
    exists d,
      Accessory_UnmarshalJSON zeroAccessory (Encoded r) = (d, None)
      /\ populatedSlots d = 1%nat
      /\ Accessory_MarshalJSON d = Ok r.
Proof.
  intros r. unfold BlockElement_roundTrips, roundTripsAs, discriminator,
    Accessory_UnmarshalJSON. cbn [Unmarshal_RawMessage].
  destruct (Unmarshal_map r) as [obj|e].
  - unfold Accessory_UnmarshalJSON_switch, unmarshalBlockElement.
    intros [H|[H|[H|[H|H]]]]; destruct H as (-> & x & Hd & He); simpl;
      rewrite Hd; simpl; eexists; (split; [reflexivity|]);
      (split; [reflexivity|]);
      unfold Accessory_MarshalJSON, toBlockElement; simpl; by rewrite He.
  - intros [H|[H|[H|[H|H]]]]; by destruct H.
Qed.

(** X9: the single-slot decoder and the array decoder route alike: on
    any element, [Accessory.UnmarshalJSON] returns the error that
    [BlockElements.UnmarshalJSON] returns on the one-element array, and
    the slot it populates in the zero [Accessory] holds the element that
    the array decoder collects in the zero container. *)
Theorem Accessory_agrees_with_BlockElements :
  forall r : RawMessage,
    snd (Accessory_UnmarshalJSON zeroAccessory (Encoded r))
    = snd (BlockElements_UnmarshalJSON zeroBlockElements (Encoded (JArr [r])))
    /\ toBlockElement (fst (Accessory_UnmarshalJSON zeroAccessory (Encoded r)))
       = head (toBlockElementSlice
                 (fst (BlockElements_UnmarshalJSON zeroBlockElements
                         (Encoded (JArr [r]))))).
Proof.
  intros r.
  unfold Accessory_UnmarshalJSON, BlockElements_UnmarshalJSON.
  cbn [Unmarshal_RawMessage Unmarshal_RawMessages rangeLoop].
  unfold BlockElements_UnmarshalJSON_body.
  destruct (Unmarshal_map r) as [obj|e]; simpl; [|done].
  unfold Accessory_UnmarshalJSON_switch, unmarshalBlockElement.
  generalize (typeField obj); intros t.
  switch_on t; try (destruct (decode r); simpl); done.
Qed.

Lemma encodeAll_length {T : Type} (enc : T -> result json) s js :
  encodeAll enc s = Ok js -> length js = length s.
Proof.
  revert js. induction s as [|x s IH]; simpl; intros js.
  - by intros [= <-].
  - destruct (enc x) as [j|e]; simpl; [|done].
    destruct (encodeAll enc s) as [js'|e]; simpl; [|done].
    intros [= <-]. simpl. by rewrite (IH js').
Qed.

Lemma Marshal_slice_Ok {T : Type} (enc : T -> result json) s j :
  Marshal_slice enc s = Ok j ->
  (s = [] /\ j = JNull)
  \/ (exists out, j = JArr out /\ length out = length s /\ (0 < length s)%nat).
Proof.
  unfold Marshal_slice. destruct s as [|x s]; [intros [= <-]; by left|].
  destruct (encodeAll enc (x :: s)) as [js|e] eqn:E; simpl; [|done].
  intros [= <-]. right. exists js.
  split; [done|]. split; [exact (encodeAll_length enc (x :: s) js E)|simpl; lia].
Qed.

Lemma toBlockElementSlice_length e :
  length (toBlockElementSlice e) = BlockElements_size e.
Proof.
  unfold toBlockElementSlice, BlockElements_size; cbn [app].
  rewrite !length_app, !length_map. lia.
Qed.

Lemma toMixedElements_length c :
  length (toMixedElements c) = ContextElements_size c.
Proof.
  unfold toMixedElements, ContextElements_size; cbn [app].
  rewrite !length_app, !length_map. lia.
Qed.

(** X10: encoding drops and duplicates nothing: whenever [MarshalJSON]
    of a [BlockElements] or [ContextElements] container succeeds, its
    result is [null] and the container holds no element, or it is an
    array with exactly as many entries as the container holds elements. *)
Theorem marshal_keeps_every_element :
  (forall (e : BlockElements) j,
      BlockElements_MarshalJSON e = Ok j ->
      (BlockElements_size e = 0%nat /\ j = JNull)
      \/ (exists out, j = JArr out /\ length out = BlockElements_size e
                      /\ (0 < BlockElements_size e)%nat))
  /\ (forall (c : ContextElements) j,
      ContextElements_MarshalJSON c = Ok j ->
      (ContextElements_size c = 0%nat /\ j = JNull)
      \/ (exists out, j = JArr out /\ length out = ContextElements_size c
                      /\ (0 < ContextElements_size c)%nat)).
Proof.
  split.
  - intros e j. unfold BlockElements_MarshalJSON. rewrite result_match_id.
    intros H. apply Marshal_slice_Ok in H. rewrite <- toBlockElementSlice_length.
    destruct H as [[-> ->]|H]; [by left | by right].
  - intros c j. unfold ContextElements_MarshalJSON. rewrite result_match_id.
    intros H. apply Marshal_slice_Ok in H. rewrite <- toMixedElements_length.
    destruct H as [[-> ->]|H]; [by left | by right].
Qed.

Lemma decodesBack_group (T : Type) `{!Codec T} (p : string -> bool) (l : list T) :
  Forall (decodesBack T p) l ->
  exists js,
    Forall2 (fun x j => encode x = Ok j) l js
    /\ Forall (fun j => p (discriminator j) = true
                        /\ exists x : T, decode j = Ok x) js
    /\ decodedAs T p js = l.
Proof.
  induction 1 as [|x l (j & He & Hp & Hd) _ (js & H1 & H2 & H3)].
  - exists []. by repeat constructor.
  - exists (j :: js). split; [by constructor|].
    split; [constructor; [split; [done | by exists x] | done]|].
    unfold decodedAs in *; csimpl. by rewrite Hp, Hd, H3.
Qed.

Lemma decodedAs_none (T : Type) `{!Codec T} (p q : string -> bool) js :
  (forall t, q t = true -> p t = false) ->
  Forall (fun j => q (discriminator j) = true) js ->
  decodedAs T p js = [].
Proof.
  intros Hpq. induction 1 as [|j js Hj _ IH]; [done|].
  unfold decodedAs in *; csimpl. by rewrite (Hpq _ Hj), IH.
Qed.

Lemma typeIs_exclusive (s t : string) :
  s <> t -> forall u, typeIs s u = true -> typeIs t u = false.
Proof.
  intros Hne u Hs. apply typeIs_true in Hs. subst u.
  unfold typeIs. by apply String.eqb_neq.
Qed.

Lemma Unmarshal_RawMessages_of_slice (out : list json) :
  Unmarshal_RawMessages (Encoded (match out with [] => JNull | _ => JArr out end))
  = Ok out.
Proof. by destruct out. Qed.

Lemma BlockElements_decodes_no_error j :
  (typeIs "image" (discriminator j) = true
   /\ exists x : ImageBlockElement, decode j = Ok x)
  \/ (typeIs "button" (discriminator j) = true
      /\ exists x : ButtonBlockElement, decode j = Ok x)
  \/ (typeIs "overflow" (discriminator j) = true
      /\ exists x : OverflowBlockElement, decode j = Ok x)
  \/ (typeIs "datepicker" (discriminator j) = true
      /\ exists x : DatePickerBlockElement, decode j = Ok x)
  \/ (typeIs "static_select" (discriminator j) = true
      /\ exists x : SelectBlockElement, decode j = Ok x) ->
  BlockElements_elementError j = None.
Proof.
  unfold BlockElements_elementError, discriminator.
  destruct (Unmarshal_map j) as [obj|e].
  - simpl. intros [H|[H|[H|[H|H]]]]; destruct H as (Ht & x & Hd);
      apply typeIs_true in Ht; rewrite Ht; simpl; by rewrite Hd.
  - intros [H|[H|[H|[H|H]]]]; destruct H as (Ht & _); by vm_compute in Ht.
Qed.

Lemma ContextElements_decodes_no_error j :
  (typeIs "image" (discriminator j) = true
   /\ exists x : ImageBlockElement, decode j = Ok x)
  \/ (isText (discriminator j) = true
      /\ exists x : TextBlockObject, decode j = Ok x) ->
  ContextElements_elementError j = None.
Proof.
  intros [(Ht & x & Hd)|(Ht & x & Hd)].
  - apply typeIs_true in Ht. by apply (ContextElements_image_no_error j x).
  - by apply (ContextElements_text_no_error j x).
Qed.

Lemma isText_not_image u : isText u = true -> typeIs "image" u = false.
Proof.
  unfold isText, typeIs, PlainTextType, MarkdownType.
  switch_on u; done.
Qed.

Lemma image_not_isText u : typeIs "image" u = true -> isText u = false.
Proof. intros H. apply typeIs_true in H. by subst u. Qed.

(** X11: encoding a container and decoding the result into the zero
    container gives the container back, provided each of its elements
    encodes to an object of its own kind that decodes back to it.  This
    holds for the container without elements too, whose encoding is
    [null]. *)
Theorem encode_then_decode_restores :
  (forall e : BlockElements,
      Forall (decodesBack ImageBlockElement (typeIs "image")) (ImageElements e) ->
      Forall (decodesBack ButtonBlockElement (typeIs "button")) (ButtonElements e) ->
      Forall (decodesBack OverflowBlockElement (typeIs "overflow"))
        (OverflowElements e) ->
      Forall (decodesBack DatePickerBlockElement (typeIs "datepicker"))
        (DatePickerElements e) ->
      Forall (decodesBack SelectBlockElement (typeIs "static_select"))
        (SelectElements e) ->
      exists j,
        BlockElements_MarshalJSON e = Ok j
        /\ BlockElements_UnmarshalJSON zeroBlockElements (Encoded j) = (e, None))
  /\ (forall c : ContextElements,
      Forall (decodesBack ImageBlockElement (typeIs "image")) (Ctx_ImageElements c) ->
      Forall (decodesBack TextBlockObject isText) (Ctx_TextObjects c) ->
      exists j,
        ContextElements_MarshalJSON c = Ok j
        /\ ContextElements_UnmarshalJSON zeroContextElements (Encoded j) = (c, None)).
Proof.
  split.
  - intros e H1 H2 H3 H4 H5.
    destruct (decodesBack_group _ _ _ H1) as (js1 & E1 & P1 & D1).
    destruct (decodesBack_group _ _ _ H2) as (js2 & E2 & P2 & D2).
    destruct (decodesBack_group _ _ _ H3) as (js3 & E3 & P3 & D3).
    destruct (decodesBack_group _ _ _ H4) as (js4 & E4 & P4 & D4).
    destruct (decodesBack_group _ _ _ H5) as (js5 & E5 & P5 & D5).
    eexists. split.
    { unfold BlockElements_MarshalJSON. rewrite result_match_id.
      apply Marshal_slice_Forall2.
      exact (toBlockElementSlice_encodes e js1 js2 js3 js4 js5 E1 E2 E3 E4 E5). }
    unfold BlockElements_UnmarshalJSON.
    rewrite Unmarshal_RawMessages_of_slice.
    rewrite (rangeLoop_accepts _ _ BlockElements_elementError BlockElements_extend);
      auto using BlockElements_body_spec, BlockElements_extend_nil,
        BlockElements_extend_app.
    + f_equal. apply BlockElements_eq; unfold BlockElements_extend;
        cbn [ImageElements ButtonElements OverflowElements DatePickerElements
             SelectElements zeroBlockElements app];
        rewrite !decodedAs_app, ?D1, ?D2, ?D3, ?D4, ?D5;
        repeat match goal with
        | P : Forall (fun j => typeIs ?s (discriminator j) = true /\ @?Q j) ?js
          |- context [decodedAs ?T (typeIs ?t) ?js] =>
            rewrite (decodedAs_none T (typeIs t) (typeIs s) js);
            [ | by apply typeIs_exclusive
              | eapply Forall_impl; [exact P | by intros ? [? _]] ]
        end;
        simpl; by rewrite ?app_nil_r.
    + repeat apply Forall_app_2;
        (eapply Forall_impl; [eassumption|]); intros j Hj;
        apply BlockElements_decodes_no_error; simpl in Hj; tauto.
  - intros c H1 H2.
    destruct (decodesBack_group _ _ _ H1) as (jsI & E1 & P1 & D1).
    destruct (decodesBack_group _ _ _ H2) as (jsT & E2 & P2 & D2).
    eexists. split.
    { unfold ContextElements_MarshalJSON. rewrite result_match_id.
      apply Marshal_slice_Forall2.
      exact (toMixedElements_encodes c jsI jsT E1 E2). }
    unfold ContextElements_UnmarshalJSON.
    rewrite Unmarshal_RawMessages_of_slice.
    rewrite (rangeLoop_accepts _ _ ContextElements_elementError
               ContextElements_extend);
      auto using ContextElements_body_spec, ContextElements_extend_nil,
        ContextElements_extend_app.
    + f_equal. destruct c as [ci ct]. unfold ContextElements_extend.
      cbn [Ctx_ImageElements Ctx_TextObjects zeroContextElements app] in *.
      rewrite !decodedAs_app, D1, D2.
      rewrite (decodedAs_none ImageBlockElement (typeIs "image") isText jsT);
        [ | exact isText_not_image
          | eapply Forall_impl; [exact P2 | by intros ? [? _]] ].
      rewrite (decodedAs_none TextBlockObject isText (typeIs "image") jsI);
        [ | exact image_not_isText
          | eapply Forall_impl; [exact P1 | by intros ? [? _]] ].
      simpl. by rewrite app_nil_r.
    + apply Forall_app_2;
        (eapply Forall_impl; [eassumption|]); intros j Hj;
        apply ContextElements_decodes_no_error; simpl in Hj; tauto.
Qed.

Lemma roundTrips_filtered (T : Type) `{!Codec T} (p : string -> bool) raw :
  Forall (fun r => p (discriminator r) = true -> roundTripsAs T r) raw ->
  Forall2 (fun x j => encode x = Ok j)
    (decodedAs T p raw) (filter (fun r => p (discriminator r) = true) raw).
Proof.
  induction 1 as [|r raw Hr _ IH]; [constructor|].
  rewrite filter_cons. unfold decodedAs; csimpl. fold (decodedAs T p raw).
  destruct (decide (p (discriminator r) = true)) as [Ht|Ht].
  - destruct (Hr Ht) as (x & Hdec & Henc).
    rewrite Ht, Hdec; simpl. by constructor.
  - by destruct (p (discriminator r)).
Qed.

Lemma imagesThenTexts_Permutation raw :
  Forall ContextElement_roundTrips raw -> imagesThenTexts raw ≡ₚ raw.
Proof.
  unfold imagesThenTexts.
  induction 1 as [|r raw Hr _ IH]; [done|].
  rewrite !filter_cons.
  destruct Hr as [[Hi _]|[Ht _]].
  - rewrite Hi. simpl. by constructor.
  - rewrite (isText_not_image _ Ht), Ht. simpl.
    rewrite <- Permutation_middle. by constructor.
Qed.

(** X12: decoding into the zero [ContextElements] an array whose
    elements are images and text objects that round-trip through their
    structure, and encoding the result, gives the images of the array
    followed by its text objects ([plain_text] and [mrkdwn] together),
    each group in the order of the array: a permutation of the input, an
    array unless the input is empty, in which case it is [null]. *)
Theorem ContextElements_decode_then_encode :
  forall raw,
    Forall ContextElement_roundTrips raw ->
    exists c,
      ContextElements_UnmarshalJSON zeroContextElements (Encoded (JArr raw))
      = (c, None)
      /\ ContextElements_MarshalJSON c
         = Ok (match imagesThenTexts raw with
               | [] => JNull
               | out => JArr out
               end)
      /\ imagesThenTexts raw ≡ₚ raw.
Proof.
  intros raw Hall.
  exists (ContextElements_extend zeroContextElements raw).
  split; [|split; [|by apply imagesThenTexts_Permutation]].
  - unfold ContextElements_UnmarshalJSON; cbn [Unmarshal_RawMessages].
    apply (rangeLoop_accepts _ _ ContextElements_elementError
             ContextElements_extend);
      auto using ContextElements_body_spec, ContextElements_extend_nil,
        ContextElements_extend_app.
    eapply Forall_impl; [exact Hall|]. simpl.
    intros r [(Hi & x & Hd & _)|(Ht & x & Hd & _)].
    + by apply (ContextElements_image_no_error r x).
    + by apply (ContextElements_text_no_error r x).
  - unfold ContextElements_MarshalJSON. rewrite result_match_id.
    rewrite (Marshal_slice_Forall2 _ _ (imagesThenTexts raw));
      [by destruct (imagesThenTexts raw)|].
    apply toMixedElements_encodes; simpl; apply roundTrips_filtered;
      (eapply Forall_impl; [exact Hall|]); simpl;
      intros r [(Hi & Hrt)|(Ht & Hrt)] Hp; try done.
    + apply typeIs_true in Hp. rewrite Hp in Ht. by vm_compute in Ht.
    + rewrite Hi in Hp. by vm_compute in Hp.
Qed.

Lemma Blocks_count_le r :
  (length (decodedAs ActionBlock (typeIs "actions") [r])
   + length (decodedAs ContextBlock (typeIs "context") [r])
   + length (decodedAs DividerBlock (typeIs "divider") [r])
   + length (decodedAs ImageBlock (typeIs "image") [r])
   + length (decodedAs SectionBlock (typeIs "section") [r]) <= 1)%nat.
Proof.
  unfold decodedAs, discriminator, typeIs; simpl.
  destruct (Unmarshal_map r) as [obj|e]; [|simpl; lia].
  generalize (typeField obj); intros t.
  switch_on t; try (simpl; lia); destruct (decode r); simpl; lia.
Qed.

Lemma BlockElements_count_le r :
  (length (decodedAs ImageBlockElement (typeIs "image") [r])
   + length (decodedAs ButtonBlockElement (typeIs "button") [r])
   + length (decodedAs OverflowBlockElement (typeIs "overflow") [r])
   + length (decodedAs DatePickerBlockElement (typeIs "datepicker") [r])
   + length (decodedAs SelectBlockElement (typeIs "static_select") [r]) <= 1)%nat.
Proof.
  unfold decodedAs, discriminator, typeIs; simpl.
  destruct (Unmarshal_map r) as [obj|e]; [|simpl; lia].
  generalize (typeField obj); intros t.
  switch_on t; try (simpl; lia); destruct (decode r); simpl; lia.
Qed.

Lemma ContextElements_count_le r :
  (length (decodedAs ImageBlockElement (typeIs "image") [r])
   + length (decodedAs TextBlockObject isText [r]) <= 1)%nat.
Proof.
  unfold decodedAs, discriminator, isText, typeIs, PlainTextType, MarkdownType;
    simpl.
  destruct (Unmarshal_map r) as [obj|e]; [|simpl; lia].
  generalize (typeField obj); intros t.
  switch_on t; try (simpl; lia); destruct (decode r); simpl; lia.
Qed.

Lemma Blocks_size_extend_le b l :
  (Blocks_size (Blocks_extend b l) <= Blocks_size b + length l)%nat.
Proof.
  revert b. induction l as [|r l IH]; intros b.
  - rewrite Blocks_extend_nil. simpl. lia.
  - change (r :: l) with ([r] ++ l).
    rewrite <- Blocks_extend_app. etransitivity; [apply IH|].
    pose proof (Blocks_count_le r) as H.
    unfold decodedAs in H; simpl in H.
    unfold Blocks_size, Blocks_extend; simpl; rewrite !length_app. simpl length. lia.
Qed.

Lemma BlockElements_size_extend_le b l :
  (BlockElements_size (BlockElements_extend b l) <= BlockElements_size b + length l)%nat.
Proof.
  revert b. induction l as [|r l IH]; intros b.
  - rewrite BlockElements_extend_nil. simpl. lia.
  - change (r :: l) with ([r] ++ l).
    rewrite <- BlockElements_extend_app. etransitivity; [apply IH|].
    pose proof (BlockElements_count_le r) as H.
    unfold decodedAs in H; simpl in H.
    unfold BlockElements_size, BlockElements_extend; simpl; rewrite !length_app.
    simpl length. lia.
Qed.

Lemma ContextElements_size_extend_le c l :
  (ContextElements_size (ContextElements_extend c l)
   <= ContextElements_size c + length l)%nat.
Proof.
  revert c. induction l as [|r l IH]; intros c.
  - rewrite ContextElements_extend_nil. simpl. lia.
  - change (r :: l) with ([r] ++ l).
    rewrite <- ContextElements_extend_app. etransitivity; [apply IH|].
    pose proof (ContextElements_count_le r) as H.
    unfold decodedAs in H; simpl in H.
    unfold ContextElements_size, ContextElements_extend; simpl; rewrite !length_app.
    simpl length. lia.
Qed.

(** X13: an array decoder collects at most one value per array element:
    whatever the input array holds, and whether or not the call fails,
    the receiver grows by no more elements than the array has. *)
Theorem decode_collects_at_most_one_per_element :
  (forall (b : Blocks) raw,
      (Blocks_size (fst (Blocks_UnmarshalJSON b (Encoded (JArr raw))))
       <= Blocks_size b + length raw)%nat)
  /\ (forall (b : BlockElements) raw,
      (BlockElements_size (fst (BlockElements_UnmarshalJSON b (Encoded (JArr raw))))
       <= BlockElements_size b + length raw)%nat)
  /\ (forall (c : ContextElements) raw,
      (ContextElements_size
         (fst (ContextElements_UnmarshalJSON c (Encoded (JArr raw))))
       <= ContextElements_size c + length raw)%nat).
Proof.
  unfold Blocks_UnmarshalJSON, BlockElements_UnmarshalJSON,
    ContextElements_UnmarshalJSON; cbn [Unmarshal_RawMessages].
  split; [|split]; intros b raw.
  - rewrite Blocks_run; cbn [fst].
    pose proof (okPrefix_length Blocks_elementError raw).
    pose proof (Blocks_size_extend_le b (okPrefix Blocks_elementError raw)).
    unfold RawMessage in *. lia.
  - rewrite BlockElements_run; cbn [fst].
    pose proof (okPrefix_length BlockElements_elementError raw).
    pose proof (BlockElements_size_extend_le b
                  (okPrefix BlockElements_elementError raw)).
    unfold RawMessage in *. lia.
  - rewrite ContextElements_run; cbn [fst].
    pose proof (okPrefix_length ContextElements_elementError raw).
    pose proof (ContextElements_size_extend_le b
                  (okPrefix ContextElements_elementError raw)).
    unfold RawMessage in *. lia.
Qed.

End Extras.

Section BlockMessageFacts.

Context `{V : Variants}.
Variable MsgRest MessageRest : Type.
Variable zeroMsg : MsgRest.
Variable zeroMessage : MessageRest.

Lemma AddBlockMessage_fold (m : BlockGo.Message MsgRest MessageRest) (l : list Block) :
  foldl (BlockGo.AddBlockMessage MsgRest MessageRest) m l
  = BlockGo.Build_Message MsgRest MessageRest
      (BlockGo.Build_Msg MsgRest
         (BlockGo.Build_Blocks
            (BlockGo.BlockSet
               (BlockGo.Msg_Blocks MsgRest (BlockGo.Message_Msg MsgRest MessageRest m))
             ++ l))
         (BlockGo.Msg_rest MsgRest (BlockGo.Message_Msg MsgRest MessageRest m)))
      (BlockGo.Message_rest MsgRest MessageRest m).
Proof.
  revert m. induction l as [|x l IH]; intros m; simpl.
  - destruct m as [[[bs] mr] r]; simpl. by rewrite app_nil_r.
  - rewrite IH. unfold BlockGo.AddBlockMessage; simpl. by rewrite <- app_assoc.
Qed.

(** X14: adding blocks one at a time with [AddBlockMessage] to the
    message that [NewBlockMessage] builds from some blocks gives the
    message that [NewBlockMessage] builds from all the blocks in the order
    they were given; starting from any message, the added blocks follow
    the ones it had and nothing else of the message changes. *)
Theorem AddBlockMessage_extends_NewBlockMessage :
  (forall blocks l : list Block,
      foldl (BlockGo.AddBlockMessage MsgRest MessageRest)
        (BlockGo.NewBlockMessage MsgRest MessageRest zeroMsg zeroMessage blocks) l
      = BlockGo.NewBlockMessage MsgRest MessageRest zeroMsg zeroMessage (blocks ++ l))
  /\ (forall (m : BlockGo.Message MsgRest MessageRest) (l : list Block),
      let m' := foldl (BlockGo.AddBlockMessage MsgRest MessageRest) m l in
      BlockGo.BlockSet
        (BlockGo.Msg_Blocks MsgRest (BlockGo.Message_Msg MsgRest MessageRest m'))
      = BlockGo.BlockSet
          (BlockGo.Msg_Blocks MsgRest (BlockGo.Message_Msg MsgRest MessageRest m))
        ++ l
      /\ BlockGo.Msg_rest MsgRest (BlockGo.Message_Msg MsgRest MessageRest m')
         = BlockGo.Msg_rest MsgRest (BlockGo.Message_Msg MsgRest MessageRest m)
      /\ BlockGo.Message_rest MsgRest MessageRest m'
         = BlockGo.Message_rest MsgRest MessageRest m).
Proof.
  split.
  - intros blocks l. by rewrite AddBlockMessage_fold.
  - intros m l m'. subst m'. by rewrite AddBlockMessage_fold.
Qed.

End BlockMessageFacts.

(** ** The operations on concrete inputs

    The runs below use the stand-in structure of [Sample] for every
    concrete variant. *)
Section Runs.

Import Sample.



Lemma unrecognized_type_is_skipped_witness :
  BlockElements_UnmarshalJSON zeroBlockElements
    (Encoded (JArr [img; tagged "carousel"; btn]))
  = (Build_BlockElements [shape "image"] [shape "button"] [] [] [], None)
  /\ BlockElements_size
       (BlockElements_extend zeroBlockElements [img; tagged "carousel"; btn])
     = 2%nat.
Proof.
  destruct (unrecognized_type_is_skipped (V := variants)) as (_ & HE & _ & _).
  destruct (HE zeroBlockElements [img; tagged "carousel"; btn])
    as (Hrun & _ & Hsize).
  - repeat constructor; eexists _, _; split; reflexivity.
  - repeat constructor; intros _; reflexivity.
  - split; [exact Hrun | exact Hsize].
Defined.

(** The zero [ContextElements] encodes to [null], not to an array. *)
Lemma empty_ContextElements_marshal_null :
  ContextElements_MarshalJSON zeroContextElements = Ok JNull
  /\ ~ (exists out, ContextElements_MarshalJSON zeroContextElements = Ok (JArr out)).
Proof. split; [reflexivity | intros [out H]; discriminate H]. Qed.

Lemma ContextElements_marshal_images_first_witness :
  ContextElements_MarshalJSON
    (Build_ContextElements [shape "image"] [shape "mrkdwn"; shape "plain_text"])
  = Ok (JArr [img; tagged "mrkdwn"; tagged "plain_text"])
  /\ exists c,
      ContextElements_UnmarshalJSON zeroContextElements
        (Encoded (JArr [tagged "mrkdwn"; img; tagged "plain_text"]))
      = (c, None)
      /\ Ctx_ImageElements c = [shape "image"]
      /\ Ctx_TextObjects c = [shape "mrkdwn"; shape "plain_text"]
      /\ ContextElements_MarshalJSON c
         = Ok (JArr [img; tagged "mrkdwn"; tagged "plain_text"]).
Proof.
  destruct (ContextElements_marshal_images_first (V := variants)) as (Hgen & Hex).
  split.
  - apply (Hgen _ [img] [tagged "mrkdwn"; tagged "plain_text"]);
      repeat constructor.
  - apply (Hex (tagged "mrkdwn") img (tagged "plain_text")); reflexivity.
Defined.



(** The zero [BlockElements] encodes to [null], not to an array. *)
Lemma empty_BlockElements_marshal_null :
  BlockElements_MarshalJSON zeroBlockElements = Ok JNull
  /\ ~ (exists out, BlockElements_MarshalJSON zeroBlockElements = Ok (JArr out)).
Proof. split; [reflexivity | intros [out H]; discriminate H]. Qed.

Lemma BlockElements_marshal_concatenates_witness :
  BlockElements_MarshalJSON
    (Build_BlockElements [shape "image"] [shape "button"] [] []
       [shape "static_select"])
  = Ok (JArr [img; btn; sel]).
Proof.
  apply (BlockElements_marshal_concatenates (V := variants) _ [img] [btn] [] [] [sel]);
    repeat constructor.
Defined.

Lemma Accessory_unmarshal_button_witness :
  Accessory_UnmarshalJSON zeroAccessory (Encoded btn)
  = (Build_Accessory None (Some (shape "button")) None None None, None).
Proof.
  apply (Accessory_unmarshal_button (V := variants)
           [("type", JStr "button")] (toMap [("type", JStr "button")]));
    reflexivity.
Defined.

(** The input [null] is not an array and no array decoder reports an
    error on it. *)
Lemma null_input_is_no_error :
  (forall items, Encoded JNull <> Encoded (JArr items))
  /\ Blocks_UnmarshalJSON zeroBlocks (Encoded JNull) = (zeroBlocks, None)
  /\ BlockElements_UnmarshalJSON zeroBlockElements (Encoded JNull)
     = (zeroBlockElements, None)
  /\ ContextElements_UnmarshalJSON zeroContextElements (Encoded JNull)
     = (zeroContextElements, None).
Proof. split; [intros items; discriminate|]. repeat split. Qed.

Lemma non_array_input_decodes_nothing_witness :
  exists err : option error,
    (err = None <-> Encoded (JStr "blocks") = Encoded JNull)
    /\ (forall b : Blocks,
          Blocks_UnmarshalJSON b (Encoded (JStr "blocks")) = (b, err))
    /\ (forall b : BlockElements,
          BlockElements_UnmarshalJSON b (Encoded (JStr "blocks")) = (b, err))
    /\ (forall e : ContextElements,
          ContextElements_UnmarshalJSON e (Encoded (JStr "blocks")) = (e, err)).
Proof.
  apply (non_array_input_decodes_nothing (V := variants)).
  intros items; discriminate.
Defined.

Lemma untyped_object_is_skipped_witness :
  BlockElements_UnmarshalJSON zeroBlockElements
    (Encoded (JArr ([img] ++ JObj [("type", JNum 5 0)] :: [btn])))
  = BlockElements_UnmarshalJSON zeroBlockElements (Encoded (JArr ([img] ++ [btn])))
  /\ Accessory_UnmarshalJSON zeroAccessory (Encoded (JObj [("type", JNum 5 0)]))
     = (zeroAccessory, None).
Proof.
  destruct (untyped_object_is_skipped (V := variants)
              [("type", JNum 5 0)] (toMap [("type", JNum 5 0)]) eq_refl)
    as (_ & _ & _ & _ & _ & HE & _ & _ & _ & _ & HA).
  - intros s. vm_compute. discriminate.
  - split; [apply (HE zeroBlockElements [img] [btn]) | apply HA].
Defined.

End Runs.


(** ** Further runs on concrete inputs *)
Section MoreRuns.

Import Sample.

Lemma decode_twice_accumulates_witness :
  BlockElements_UnmarshalJSON
    (fst (BlockElements_UnmarshalJSON zeroBlockElements (Encoded (JArr [img; btn]))))
    (Encoded (JArr [img]))
  = BlockElements_UnmarshalJSON zeroBlockElements (Encoded (JArr ([img; btn] ++ [img]))).
Proof.
  destruct (decode_twice_accumulates (V := variants)) as (_ & HE & _).
  apply (HE zeroBlockElements [img; btn] [img]). reflexivity.
Defined.

Lemma Accessory_decode_overlays_witness :
  fst (Accessory_UnmarshalJSON
         (Build_Accessory (Some (shape "image")) None None None None)
         (Encoded (JNum 5 0)))
  = Build_Accessory (Some (shape "image")) None None None None.
Proof.
  destruct (Accessory_decode_overlays (V := variants)
              (Build_Accessory (V := variants) (Some (shape "image")) None None None None)
              (Encoded (JNum 5 0))) as (_ & _ & H).
  apply H. discriminate.
Defined.

Lemma Accessory_populated_image_keeps_winning_witness :
  ButtonElement
    (fst (Accessory_UnmarshalJSON
            (Build_Accessory (Some (shape "image")) None None None None)
            (Encoded btn)))
  = Some (shape "button")
  /\ Accessory_MarshalJSON
       (fst (Accessory_UnmarshalJSON
               (Build_Accessory (Some (shape "image")) None None None None)
               (Encoded btn)))
     = Ok img.
Proof.
  split; [reflexivity|].
  apply (Accessory_populated_image_keeps_winning (V := variants)
           (Build_Accessory (V := variants) (Some (shape "image")) None None None None)
           (shape "image") btn); [reflexivity|].
  vm_compute. discriminate.
Defined.

Lemma Accessory_decode_then_encode_witness :
  exists d,
    Accessory_UnmarshalJSON zeroAccessory (Encoded sel) = (d, None)
    /\ populatedSlots d = 1%nat
    /\ Accessory_MarshalJSON d = Ok sel.
Proof.
  apply (Accessory_decode_then_encode (V := variants) sel).
  do 4 right. split; [reflexivity|]. eexists; split; reflexivity.
Defined.

Lemma marshal_keeps_every_element_witness :
  (BlockElements_size (Build_BlockElements [shape "image"] [shape "button"] [] [] [])
   = 0%nat /\ JArr [img; btn] = JNull)
  \/ (exists out,
        JArr [img; btn] = JArr out
        /\ length out
           = BlockElements_size
               (Build_BlockElements [shape "image"] [shape "button"] [] [] [])
        /\ (0 < BlockElements_size
                  (Build_BlockElements [shape "image"] [shape "button"] [] [] []))%nat).
Proof.
  destruct (marshal_keeps_every_element (V := variants)) as (HE & _).
  apply (HE (Build_BlockElements (V := variants)
               [shape "image"] [shape "button"] [] [] [])).
  reflexivity.
Defined.

Lemma encode_then_decode_restores_witness :
  (exists j,
      BlockElements_MarshalJSON
        (Build_BlockElements [shape "image"] [shape "button"; shape "button"] [] [] [])
      = Ok j
      /\ BlockElements_UnmarshalJSON zeroBlockElements (Encoded j)
         = (Build_BlockElements [shape "image"] [shape "button"; shape "button"]
              [] [] [], None))
  /\ (exists j,
        ContextElements_MarshalJSON
          (Build_ContextElements [shape "image"] [shape "mrkdwn"; shape "plain_text"])
        = Ok j
        /\ ContextElements_UnmarshalJSON zeroContextElements (Encoded j)
           = (Build_ContextElements [shape "image"]
                [shape "mrkdwn"; shape "plain_text"], None)).
Proof.
  destruct (encode_then_decode_restores (V := variants)) as (HE & HC).
  split.
  - apply HE; simpl;
      repeat first [apply List.Forall_nil | apply List.Forall_cons];
      eexists; (split; [reflexivity|]); split; reflexivity.
  - apply HC; simpl;
      repeat first [apply List.Forall_nil | apply List.Forall_cons];
      eexists; (split; [reflexivity|]); split; reflexivity.
Defined.

Lemma ContextElements_decode_then_encode_witness :
  exists c,
    ContextElements_UnmarshalJSON zeroContextElements
      (Encoded (JArr [tagged "plain_text"; img; tagged "mrkdwn"; img]))
    = (c, None)
    /\ ContextElements_MarshalJSON c
       = Ok (JArr [img; img; tagged "plain_text"; tagged "mrkdwn"])
    /\ [img; img; tagged "plain_text"; tagged "mrkdwn"]
       ≡ₚ [tagged "plain_text"; img; tagged "mrkdwn"; img].
Proof.
  apply (ContextElements_decode_then_encode (V := variants)
           [tagged "plain_text"; img; tagged "mrkdwn"; img]).
  repeat first [apply List.Forall_nil | apply List.Forall_cons].
  - right. split; [reflexivity|]. eexists; split; reflexivity.
  - left. split; [reflexivity|]. eexists; split; reflexivity.
  - right. split; [reflexivity|]. eexists; split; reflexivity.
  - left. split; [reflexivity|]. eexists; split; reflexivity.
Defined.

End MoreRuns.


(** ** Objects the decoders reject *)
Section RejectedObjects.

Import Sample.

(** The calls of C2 on arrays of JSON objects that hold an element of
    unrecognized type: [[carousel, image]] where the image object carries
    a number before its [type] string, which the concrete decode rejects,
    and the one-element array whose carousel object holds the number
    [1e400], which the generic decode rejects.  Both calls return an
    error. *)
Lemma unrecognized_type_array_can_fail :
  isBlockElementType (discriminator (tagged "carousel")) = false
  /\ isBlockElementType
       (discriminator (JObj [("type", JNum 5 0); ("type", JStr "image")])) = true
  /\ BlockElements_UnmarshalJSON zeroBlockElements
       (Encoded (JArr [tagged "carousel";
                       JObj [("type", JNum 5 0); ("type", JStr "image")]]))
     = (zeroBlockElements, Some (UnmarshalTypeError "number"))
  /\ BlockElements_UnmarshalJSON zeroBlockElements
       (Encoded (JArr [JObj [("type", JStr "carousel"); ("n", JNum 1 400)]]))
     = (zeroBlockElements, Some (UnmarshalTypeError "number")).
Proof. repeat split; reflexivity. Qed.

(** The call of C7 on JSON objects whose [type] is [button]: one holds
    the number [1e400], one carries a number before its [type] string.
    Both calls return an error and populate no slot. *)
Lemma button_object_can_fail :
  Accessory_UnmarshalJSON zeroAccessory
    (Encoded (JObj [("type", JStr "button"); ("n", JNum 1 400)]))
  = (zeroAccessory, Some (UnmarshalTypeError "number"))
  /\ toMap [("type", JNum 5 0); ("type", JStr "button")] !! "type"
     = Some (JStr "button")
  /\ Accessory_UnmarshalJSON zeroAccessory
       (Encoded (JObj [("type", JNum 5 0); ("type", JStr "button")]))
     = (zeroAccessory, Some (UnmarshalTypeError "number")).
Proof. repeat split; reflexivity. Qed.

(** The calls of C10 on the JSON objects [{"x": 1e400}], which has no
    [type], and [{"type": 1e400}], whose [type] is not a string: every
    decoder returns an error instead of skipping the object. *)
Lemma untyped_object_can_fail :
  Blocks_UnmarshalJSON zeroBlocks (Encoded (JArr [JObj [("x", JNum 1 400)]]))
  = (zeroBlocks, Some (UnmarshalTypeError "number"))
  /\ BlockElements_UnmarshalJSON zeroBlockElements
       (Encoded (JArr [JObj [("x", JNum 1 400)]]))
     = (zeroBlockElements, Some (UnmarshalTypeError "number"))
  /\ ContextElements_UnmarshalJSON zeroContextElements
       (Encoded (JArr [JObj [("type", JNum 1 400)]]))
     = (zeroContextElements, Some (UnmarshalTypeError "number"))
  /\ Accessory_UnmarshalJSON zeroAccessory (Encoded (JObj [("type", JNum 1 400)]))
     = (zeroAccessory, Some (UnmarshalTypeError "number")).
Proof. repeat split; reflexivity. Qed.

End RejectedObjects.
